(** * gdsctools.readers: IC50 and GenomicFeatures readers

    A shallow embedding of [gdsctools/readers.py].  The module is a thin
    layer over pandas: every method is a handful of dataframe operations.
    The development therefore has two layers.

    - [Pandas]: the dataframe operations the readers call
      ([read_csv], [to_csv], [df[labels]], [df[mask]], [set_index],
      [isin], [sum], [drop], [isnull], [copy]) on a column-major table of
      cells.  Column labels are strings; a cell is a missing value, a
      number or a string.  Floating point numbers are idealised as
      rationals, and the text written for a number is a parameter.
    - the reader classes: [Reader], [IC50] and [GenomicFeatures], whose
      objects hold a reference to a dataframe living in a store, so that
      [copy], rebinding of [self.df] and in-place updates are told apart. *)

From Stdlib Require Import QArith Lqa DecimalString.
From stdpp Require Import gmap strings list.

Local Open Scope string_scope.
Local Open Scope list_scope.

(** ** Cells, frames, exceptions *)

Inductive cell : Type :=
  | CNaN
  | CNum (q : Q)
  | CStr (s : string).

(** A dataframe: the name of its index, the index labels (one per row) and
    the labelled columns in their order, each holding one cell per row. *)
Record DataFrame : Type := mkDataFrame {
  index_name : option string;
  index : list cell;
  data : list (string * list cell)
}.

(** [df.columns] *)
Definition columns (d : DataFrame) : list string := map fst (data d).

(** [len(df)] *)
Definition nrows (d : DataFrame) : nat := length (index d).

(** Every column has one cell per index label. *)
Definition rectangular (d : DataFrame) : Prop :=
  Forall (fun c => length (snd c) = nrows d) (data d).

Inductive exn : Type :=
  | KeyError
  | AssertionError
  | TypeError
  | AttributeError
  | IOError
  | EmptyDataError
  | Dangling.   (* a reference to a frame that was never allocated;
                   unreachable from Python, kept to make lookups total *)

Inductive result (A : Type) : Type :=
  | Ok (a : A)
  | Raise (e : exn).
Arguments Ok {A} a.
Arguments Raise {A} e.

Definition bind {A B} (r : result A) (k : A -> result B) : result B :=
  match r with
  | Ok a => k a
  | Raise e => Raise e
  end.

Notation "'try!' x := r 'in' k" := (bind r (fun x => k))
  (at level 10, x name, r at level 100, k at level 200).

Definition raises {A} (r : result A) : Prop := exists e, r = Raise e.

(** ** The pandas operations used by the readers *)

Module Pandas.

Definition label_eqb (k : string) (c : string * list cell) : bool :=
  String.eqb k (fst c).

Definition has_column (k : string) (d : DataFrame) : bool :=
  existsb (String.eqb k) (columns d).

(** [df[key]]: the column labelled [key], the first one when the label is
    repeated. *)
Definition getitem (key : string) (d : DataFrame) : result (list cell) :=
  match List.find (label_eqb key) (data d) with
  | Some c => Ok (snd c)
  | None => Raise KeyError
  end.

(** [df[[k1, ..., kn]]]: a new frame with the requested columns in the
    requested order; [KeyError] when a label is missing. *)
Definition getitem_list (keys : list string) (d : DataFrame) : result DataFrame :=
  if forallb (fun k => has_column k d) keys then
    Ok {| index_name := index_name d;
          index := index d;
          data := flat_map (fun k => List.filter (label_eqb k) (data d)) keys |}
  else Raise KeyError.

(** [df.set_index(key)] with the default [drop=True]. *)
Definition set_index (key : string) (d : DataFrame) : result DataFrame :=
  try! col := getitem key d in
  Ok {| index_name := Some key;
        index := col;
        data := List.filter (fun c => negb (label_eqb key c)) (data d) |}.

(** Equality of values as [isin] sees it: numbers by value, strings by
    content, a missing value matches a missing value. *)
Definition cell_eqb (a b : cell) : bool :=
  match a, b with
  | CNaN, CNaN => true
  | CNum p, CNum q => Qeq_bool p q
  | CStr s, CStr t => String.eqb s t
  | _, _ => false
  end.

(** [series.isin(values)] *)
Definition isin (values : list cell) (s : list cell) : list bool :=
  map (fun c => existsb (cell_eqb c) values) s.

(** Selection of the positions at which a boolean mask is true. *)
Fixpoint compress {A} (mask : list bool) (l : list A) : list A :=
  match mask, l with
  | b :: mask', x :: l' =>
      if b then x :: compress mask' l' else compress mask' l'
  | _, _ => []
  end.

(** [df[mask]] for a boolean series [mask]: a new frame with the rows at
    which the mask holds. *)
Definition getitem_mask (mask : list bool) (d : DataFrame) : DataFrame :=
  {| index_name := index_name d;
     index := compress mask (index d);
     data := map (fun c => (fst c, compress mask (snd c))) (data d) |}.

(** [series.sum()] as [_cleanup] uses it, that is followed by a comparison
    with a number: missing values are skipped; a column holding a string
    has no numeric total, and the reduction or the comparison that follows
    raises [TypeError]. *)
Fixpoint sum (s : list cell) : result Q :=
  match s with
  | [] => Ok 0%Q
  | CNaN :: s' => sum s'
  | CNum q :: s' => try! t := sum s' in Ok (q + t)%Q
  | CStr _ :: _ => Raise TypeError
  end.

(** [df.drop(labels, axis=1)] *)
Definition drop (labels : list string) (d : DataFrame) : result DataFrame :=
  if forallb (fun k => has_column k d) labels then
    Ok {| index_name := index_name d;
          index := index d;
          data := List.filter
                    (fun c => negb (existsb (fun k => label_eqb k c) labels))
                    (data d) |}
  else Raise KeyError.

Definition isnull (c : cell) : bool :=
  match c with
  | CNaN => true
  | _ => false
  end.

(** [df.isnull().sum()]: per column, the number of missing cells. *)
Definition isnull_sum (d : DataFrame) : list nat :=
  map (fun c => length (List.filter isnull (snd c))) (data d).

(** [series.count()]: the number of cells that are not missing. *)
Definition count (s : list cell) : nat :=
  length (List.filter (fun c => negb (isnull c)) s).

(** [series.unique()]: the distinct values, in order of first appearance. *)
Fixpoint unique (s : list cell) : list cell :=
  match s with
  | [] => []
  | x :: s' => x :: List.filter (fun y => negb (cell_eqb x y)) (unique s')
  end.

(** [df.values.flatten()]: the cells row after row. *)
Fixpoint flatten (n : nat) (cols : list (list cell)) : list cell :=
  match n with
  | O => []
  | S n' => map (hd CNaN) cols ++ flatten n' (map (@tl cell) cols)
  end.

Definition values_flatten (d : DataFrame) : list cell :=
  flatten (nrows d) (map snd (data d)).

(** [np.isnan(x)]: defined on numbers only. *)
Definition isnan (x : cell) : result bool :=
  match x with
  | CNaN => Ok true
  | CNum _ => Ok false
  | CStr _ => Raise TypeError
  end.

End Pandas.

(** ** Store and file system *)

Definition loc := nat.

Definition table := list (string * list cell).

(** A delimited text file, represented by the separator it was written with
    and the table (header field and cells of each column) the parser
    extracts from it under that separator. *)
Record csv_file : Type := mkFile {
  file_sep : string;
  file_table : table
}.

(** The state the readers work in: the dataframes allocated so far (a
    reference is a position in [frames]), the files by name, and [resplit],
    what the parser extracts from a file when it is read with another
    separator than it was written with.  The splitting of lines into fields
    is not modelled, so [resplit] is left uninterpreted. *)
Record world : Type := mkWorld {
  frames : list DataFrame;
  files : gmap string csv_file;
  resplit : csv_file -> string -> table
}.

(** The text of numbers, which is not derived here: the field pandas writes
    for a number, and the number it reads from a field when the field reads
    as one. *)
Record text_layer : Type := mkText {
  number_text : Q -> string;
  text_number : string -> option Q
}.

(** State and exceptions: the state survives an exception. *)
Definition M (A : Type) : Type := world -> result A * world.

Definition ret {A} (a : A) : M A := fun w => (Ok a, w).

Definition raise {A} (e : exn) : M A := fun w => (Raise e, w).

Definition mbind {A B} (m : M A) (k : A -> M B) : M B :=
  fun w =>
    match m w with
    | (Ok a, w') => k a w'
    | (Raise e, w') => (Raise e, w')
    end.

Notation "'do!' x := m 'in' k" := (mbind m (fun x => k))
  (at level 10, x name, m at level 100, k at level 200).

Definition lift {A} (r : result A) : M A := fun w => (r, w).

(** Allocation of a new dataframe. *)
Definition new (d : DataFrame) : M loc :=
  fun w => (Ok (length (frames w)),
            {| frames := frames w ++ [d]; files := files w; resplit := resplit w |}).

Definition load (l : loc) : M DataFrame :=
  fun w =>
    match frames w !! l with
    | Some d => (Ok d, w)
    | None => (Raise Dangling, w)
    end.

(** In-place update of an allocated dataframe. *)
Definition store (l : loc) (d : DataFrame) : M unit :=
  fun w => (Ok tt,
            {| frames := <[l := d]> (frames w); files := files w; resplit := resplit w |}).

Module PandasIO.

Definition decimal (n : nat) : string :=
  NilEmpty.string_of_uint (Nat.to_uint n).

(** Header fields left empty are named after their position. *)
Fixpoint fill_unnamed (i : nat) (names : list string) : list string :=
  match names with
  | [] => []
  | n :: names' =>
      (if String.eqb n "" then "Unnamed: " +:+ decimal i else n)
        :: fill_unnamed (S i) names'
  end.

(** A header field met before gets the number of earlier occurrences as
    a suffix. *)
Fixpoint mangle_dupe_cols (seen names : list string) : list string :=
  match names with
  | [] => []
  | n :: names' =>
      let k := length (List.filter (String.eqb n) seen) in
      (if Nat.eqb k 0 then n else n +:+ "." +:+ decimal k)
        :: mangle_dupe_cols (n :: seen) names'
  end.

Definition parse_header (names : list string) : list string :=
  mangle_dupe_cols [] (fill_unnamed 0 names).

Definition RangeIndex (n : nat) : list cell :=
  map (fun i => CNum (inject_Z (Z.of_nat i))) (seq 0 n).

Definition table_rows (t : table) : nat :=
  match t with
  | [] => 0
  | c :: _ => length (snd c)
  end.

(** [pd.read_csv(filename, sep=sep)] *)
Definition read_csv (filename sep : string) : M DataFrame :=
  fun w =>
    match files w !! filename with
    | None => (Raise IOError, w)
    | Some f =>
        let t := if String.eqb sep (file_sep f) then file_table f
                 else resplit w f sep in
        match t with
        | [] => (Raise EmptyDataError, w)
        | _ =>
            (Ok {| index_name := None;
                   index := RangeIndex (table_rows t);
                   data := combine (parse_header (map fst t)) (map snd t) |}, w)
        end
    end.

(** The fields [read_csv] takes for a missing value (its default
    [na_values]) and for a boolean. *)
Definition na_values : list string :=
  [""; "#N/A"; "#N/A N/A"; "#NA"; "-1.#IND"; "-1.#QNAN"; "-NaN"; "-nan";
   "1.#IND"; "1.#QNAN"; "<NA>"; "N/A"; "NA"; "NULL"; "NaN"; "None"; "n/a";
   "nan"; "null"].

Definition true_values : list string := ["True"; "TRUE"; "true"].

Definition false_values : list string := ["False"; "FALSE"; "false"].

Definition is_na (t : string) : bool := existsb (String.eqb t) na_values.

Definition is_bool (t : string) : bool :=
  existsb (String.eqb t) (true_values ++ false_values).

Definition reads_as_number (tl : text_layer) (t : string) : bool :=
  match text_number tl t with
  | Some _ => true
  | None => false
  end.

(** The field [to_csv] writes for a cell: nothing for a missing value, the
    text of a number, a string as it is (the quotes put around a string
    that holds the separator, a quote or a line end are undone by the
    parser). *)
Definition to_text (tl : text_layer) (c : cell) : string :=
  match c with
  | CNaN => ""
  | CNum q => number_text tl q
  | CStr s => s
  end.

(** The cells [read_csv] makes of the fields of a column.  A field among
    [na_values] is a missing value.  When every other field reads as a
    number the column holds these numbers; when every other field is a
    boolean it holds booleans, kept as the numbers 1 and 0 they count for;
    otherwise it holds the fields as strings. *)
Definition infer_column (tl : text_layer) (fields : list string) : list cell :=
  let present := List.filter (fun t => negb (is_na t)) fields in
  if forallb (reads_as_number tl) present then
    map (fun t => if is_na t then CNaN
                  else match text_number tl t with
                       | Some q => CNum q
                       | None => CNaN
                       end) fields
  else if forallb is_bool present then
    map (fun t => if is_na t then CNaN
                  else CNum (if existsb (String.eqb t) true_values then 1 else 0)) fields
  else
    map (fun t => if is_na t then CNaN else CStr t) fields.

(** What the parser makes of a column once it is written as text. *)
Definition read_back (tl : text_layer) (col : list cell) : list cell :=
  infer_column tl (map (to_text tl) col).

(** The characters that cannot separate fields: the quote and the line
    ends. *)
Definition reserved : list string :=
  [String (Ascii.ascii_of_nat 34) ""; String (Ascii.ascii_of_nat 10) "";
   String (Ascii.ascii_of_nat 13) ""].

Definition separates (sep : string) : bool :=
  Nat.eqb (String.length sep) 1 && negb (existsb (String.eqb sep) reserved).

(** [df.to_csv(filename, sep=sep)]: the index is written as the first
    column, under its name (an empty field when it has none).  The file is
    opened, hence emptied, before the [csv] writer is given the separator,
    which it refuses with [TypeError] unless it is one character long.  The
    file written is represented, like any other, by what the parser
    extracts from its text; with a quote or a line end as separator the
    fields cannot be told from the text, and what the parser extracts is
    left uninterpreted. *)
Definition to_csv (tl : text_layer) (d : DataFrame) (filename sep : string) : M unit :=
  fun w =>
    if Nat.eqb (String.length sep) 1 then
      let t := (default "" (index_name d), index d) :: data d in
      let text := {| file_sep := sep;
                     file_table := map (fun c => (fst c, read_back tl (snd c))) t |} in
      let f := if separates sep then text
               else {| file_sep := sep; file_table := resplit w text sep |} in
      (Ok tt, {| frames := frames w; files := <[filename := f]> (files w);
                 resplit := resplit w |})
    else
      (Raise TypeError,
       {| frames := frames w;
          files := <[filename := {| file_sep := sep; file_table := [] |}]> (files w);
          resplit := resplit w |}).

End PandasIO.

(** ** Python values handed to the constructors *)

(** An instance of one of the reader classes: the attributes the methods
    read back.  ([_filename] is only read inside the constructor that sets
    it; [_col_tissue], [_col_sample] and [_col_msi] are constants.) *)
Record object : Type := mkObject {
  _sep : string;
  df : loc
}.

Inductive value : Type :=
  | VNone
  | VStr (s : string)
  | VInt (z : Z)
  | VDataFrame (l : loc)
  | VIC50 (o : object)
  | VGenomicFeatures (o : object)
  | VObject (df_attr : option loc).
    (* any other object: it has no [columns] attribute, and its [df]
       attribute, when it has one that can be copied, is a dataframe *)

(** [easydev.get_share_file]: the path of a file shipped with the package
    (the installation prefix is left out). *)
Definition get_share_file (package datadir filename : string) : string :=
  package +:+ "/" +:+ datadir +:+ "/" +:+ filename.

(** [easydev.to_list]: a single string stands for the list holding it. *)
Inductive str_or_list : Type :=
  | OneStr (s : string)
  | SomeList (l : list cell).

Definition to_list (data : str_or_list) : list cell :=
  match data with
  | OneStr s => [CStr s]
  | SomeList l => l
  end.

(** ** The reader classes *)

Definition tab : string := String (Ascii.ascii_of_nat 9) "".
Definition newline : string := String (Ascii.ascii_of_nat 10) "".

Module Reader.

(** [Reader.__init__] stores [filename] and [sep] (default: a tabulation)
    in [_filename] and [_sep]. *)
Definition default_sep : string := tab.

(** [Reader.to_csv] *)
Definition to_csv (tl : text_layer) (self : object) (filename : string)
    (sep : option string) : M unit :=
  let sep := match sep with
             | None => _sep self
             | Some s => s
             end in
  do! d := load (df self) in
  PandasIO.to_csv tl d filename sep.

End Reader.

Module CosmicRows.

Definition cosmicIds (self : object) : M (list cell) :=
  do! d := load (df self) in
  ret (index d).

End CosmicRows.

(** The quotient of two counts as a float: undefined (not a number) when
    the divisor is zero. *)
Inductive pyfloat : Type :=
  | FNum (q : Q)
  | FNaN.

Definition true_divide (a b : nat) : pyfloat :=
  match b with
  | O => FNaN
  | S _ => FNum (inject_Z (Z.of_nat a) / inject_Z (Z.of_nat b))%Q
  end.

Module IC50.

Definition __init__ (filename : value) (sep : string) : M object :=
  (* super(IC50, self).__init__(filename, sep=sep) *)
  let self_sep := sep in
  match filename with
  | VStr name =>
      do! raw := PandasIO.read_csv name self_sep in
      do! rawdf := new raw in
      let cols := "COSMIC ID" :: List.filter (String.prefix "Drug") (columns raw) in
      do! sel := lift (Pandas.getitem_list cols raw) in
      do! l := new sel in
      do! d := lift (Pandas.set_index "COSMIC ID" sel) in
      do! _ := store l d in
      ret {| _sep := self_sep; df := l |}
  | VIC50 o =>
      do! d := load (df o) in
      do! l := new d in
      ret {| _sep := self_sep; df := l |}
  | VDataFrame l0 =>
      do! d := load l0 in
      do! l := new d in
      ret {| _sep := self_sep; df := l |}
  | _ => raise TypeError
  end.

Definition drugIds (self : object) : M (list string) :=
  do! d := load (df self) in
  ret (columns d).

Section Str.
(** The text Python prints for a float. *)
Variable float_repr : pyfloat -> string.

Definition __str__ (self : object) : M string :=
  do! drugs := drugIds self in
  do! d := load (df self) in
  let txt := "Number of drugs: " +:+ PandasIO.decimal (length drugs) +:+ newline in
  let txt := txt +:+ "Number of cell lines: " +:+ PandasIO.decimal (nrows d) +:+ newline in
  let N := length drugs * nrows d in
  let Nna := list_sum (Pandas.isnull_sum d) in
  let txt := txt +:+ "Percentage of NA " +:+ float_repr (true_divide Nna N) +:+ newline in
  ret txt.
End Str.

(** [plot_ic50_count]: the value returned, the fraction of measured IC50
    per drug (the drawing itself is left out). *)
Definition plot_ic50_count (self : object) : M (list pyfloat) :=
  do! d := load (df self) in
  ret (map (fun c => true_divide (Pandas.count (snd c)) (nrows d)) (data d)).

(** [[x for x in values if not np.isnan(x)]] *)
Fixpoint not_nan (values : list cell) : result (list cell) :=
  match values with
  | [] => Ok []
  | x :: values' =>
      try! nan := Pandas.isnan x in
      try! rest := not_nan values' in
      Ok (if nan then rest else x :: rest)
  end.

(** [hist]: the value returned, all the measured IC50 (the drawing itself
    is left out). *)
Definition hist (self : object) : M (list cell) :=
  do! d := load (df self) in
  lift (not_nan (Pandas.values_flatten d)).

End IC50.

Module GenomicFeatures.

Definition _col_tissue : string := "Tissue Factor Value".
Definition _col_sample : string := "Sample Name".
Definition _col_msi : string := "MS-instability Factor Value".

(** What the constructor binds to [self.df] when [filename] is not a
    string: [filename.df.copy()], or [filename] itself when that raises.
    The outcome is the reference of a dataframe; anything else bound to
    [self.df] has no [columns], and the statement that follows raises
    [AttributeError]. *)
Definition bind_df (filename : value) : M loc :=
  match filename with
  | VIC50 o | VGenomicFeatures o =>
      do! d := load (df o) in
      new d
  | VObject (Some l') =>
      do! d := load l' in
      new d
  | VDataFrame l' =>
      do! d := load l' in
      (* on a dataframe, [filename.df] is its column labelled df when
         there is one: a series, which is copied and bound *)
      if Pandas.has_column "df" d then raise AttributeError
      else ret l'
  | VObject None | VInt _ | VNone | VStr _ => raise AttributeError
  end.

Definition __init__ (filename : value) (sep : string) : M object :=
  let filename :=
    match filename with
    | VNone => VStr (get_share_file "gdsctools" "data" "genomic_features.tsv")
    | v => v
    end in
  (* super(GenomicFeatures, self).__init__(filename): [sep] is not handed
     on, [_sep] is the default of [Reader.__init__] *)
  let self_sep := Reader.default_sep in
  do! l0 :=
    match filename with
    | VStr name =>
        do! raw := PandasIO.read_csv name self_sep in
        do! l := new raw in
        if Pandas.has_column "COSMIC ID" raw then
          do! d := lift (Pandas.set_index "COSMIC ID" raw) in
          do! _ := store l d in
          ret l
        else raise AssertionError
    | v => bind_df v
    end in
  do! d := load l0 in
  do! sel := lift (Pandas.getitem_list
                     (List.filter (fun x => negb (String.prefix "Drug_" x)) (columns d))
                     d) in
  do! l := new sel in
  let names := [_col_tissue; _col_sample; _col_msi] in
  if forallb (fun name => Pandas.has_column name sel) names then
    ret {| _sep := self_sep; df := l |}
  else raise AssertionError.

Definition features (self : object) : M (list string) :=
  do! d := load (df self) in
  ret (columns d).

Definition tissues (self : object) : M (list cell) :=
  do! d := load (df self) in
  lift (Pandas.getitem _col_tissue d).

Fixpoint sums (cols : list (string * list cell)) : result (list Q) :=
  match cols with
  | [] => Ok []
  | c :: cols' =>
      try! s := Pandas.sum (snd c) in
      try! ss := sums cols' in
      Ok (s :: ss)
  end.

Definition _cleanup (self : object) (required_features : Q) : M unit :=
  let to_ignore := [_col_tissue; _col_msi; _col_sample] in
  do! d := load (df self) in
  do! view := lift (Pandas.getitem_list
                      (List.filter (fun x => negb (existsb (String.eqb x) to_ignore))
                                   (columns d))
                      d) in
  do! total := lift (sums (data view)) in
  let todrop := Pandas.compress
                  (map (fun s => Qle_bool s required_features) total)
                  (columns view) in
  do! d' := lift (Pandas.drop todrop d) in
  store (df self) d'.

(** Both filters rebind [self.df] to the selected rows before [_cleanup]
    runs, and the rebinding stays when [_cleanup] raises: the object after
    the call is returned next to the outcome. *)
Definition drop_tissue_in (self : object) (tissues : str_or_list)
  : world -> result unit * object * world :=
  fun w =>
    let tissues := to_list tissues in
    let rebind :=
      do! d := load (df self) in
      do! col := lift (Pandas.getitem _col_tissue d) in
      let mask := map (fun b => Bool.eqb b false) (Pandas.isin tissues col) in
      new (Pandas.getitem_mask mask d) in
    match rebind w with
    | (Raise e, w1) => (Raise e, self, w1)
    | (Ok l, w1) =>
        let self' := {| _sep := _sep self; df := l |} in
        let '(r, w2) := _cleanup self' 0 w1 in
        (r, self', w2)
    end.

Definition keep_tissue_in (self : object) (tissues : str_or_list)
  : world -> result unit * object * world :=
  fun w =>
    let tissues := to_list tissues in
    let tissues := to_list (SomeList tissues) in
    let rebind :=
      do! d := load (df self) in
      do! col := lift (Pandas.getitem _col_tissue d) in
      let mask := Pandas.isin tissues col in
      new (Pandas.getitem_mask mask d) in
    match rebind w with
    | (Raise e, w1) => (Raise e, self, w1)
    | (Ok l, w1) =>
        let self' := {| _sep := _sep self; df := l |} in
        let '(r, w2) := _cleanup self' 0 w1 in
        (r, self', w2)
    end.

Definition unique_tissues (self : object) : M (list cell) :=
  do! d := load (df self) in
  do! col := lift (Pandas.getitem _col_tissue d) in
  ret (Pandas.unique col).

(** [x.endswith(suffix)] *)
Definition endswith (suffix x : string) : bool :=
  String.prefix (String.rev suffix) (String.rev x).

(** The text Python prints for an integer. *)
Definition format_int (z : Z) : string := NilZero.string_of_int (Z.to_int z).

Definition __str__ (self : object) : M string :=
  let txt := "Genomic features distribution" +:+ newline in
  do! d := load (df self) in
  do! col := lift (Pandas.getitem _col_tissue d) in
  let Ntissue := length (Pandas.unique col) in
  let txt := txt +:+ "Number of unique tissues " +:+ format_int (Z.of_nat Ntissue)
                 +:+ newline in
  do! features := features self in
  let Nfeatures := length features in
  let txt := txt +:+ "Number of unique features "
                 +:+ format_int (Z.of_nat Nfeatures - 3) +:+ " with" +:+ newline in
  let n_mutations := length (List.filter (endswith "_mut") (columns d)) in
  let txt := txt +:+ "- Mutation: " +:+ format_int (Z.of_nat n_mutations) +:+ newline in
  let n_gain := length (List.filter (String.prefix "gain_cna") (columns d)) in
  let txt := txt +:+ "- CNA (gain): " +:+ format_int (Z.of_nat n_gain) +:+ newline in
  let n_loss := length (List.filter (String.prefix "loss_cna") (columns d)) in
  let txt := txt +:+ "- CNA (loss): " +:+ format_int (Z.of_nat n_loss) in
  ret txt.

End GenomicFeatures.

(** ** Vocabulary of the statements *)

(** The inputs the interface documents: a file name, an instance of a
    reader class, a dataframe. *)
Definition documented_input (v : value) : bool :=
  match v with
  | VStr _ | VIC50 _ | VGenomicFeatures _ | VDataFrame _ => true
  | _ => false
  end.

(** What [IC50.__init__] tests for. *)
Definition IC50_input (v : value) : bool :=
  match v with
  | VStr _ | VIC50 _ | VDataFrame _ => true
  | _ => false
  end.

(** What [GenomicFeatures.__init__] can bind a dataframe from: no input
    (the packaged file), a file name, a dataframe, or any object whose [df]
    attribute is a dataframe. *)
Definition GenomicFeatures_input (v : value) : bool :=
  match v with
  | VNone | VStr _ | VDataFrame _ | VIC50 _ | VGenomicFeatures _ | VObject (Some _) => true
  | _ => false
  end.

(** The dataframe an [IC50] or a dataframe input carries. *)
Definition source_frame (v : value) : option loc :=
  match v with
  | VIC50 o => Some (df o)
  | VDataFrame l => Some l
  | _ => None
  end.

(** A sequence of in-place updates of the frame at [l]. *)
Definition mutate (l : loc) (updates : list DataFrame) (w : world) : world :=
  fold_left (fun w d => snd (store l d w)) updates w.

(** All the cells of a frame, column after column. *)
Definition cells (d : DataFrame) : list cell := concat (map snd (data d)).

(** The number of missing cells of a frame. *)
Definition null_cells (d : DataFrame) : nat :=
  length (List.filter Pandas.isnull (cells d)).







(** The three informative columns [_cleanup] ignores. *)
Definition special (k : string) : bool :=
  existsb (String.eqb k)
    [GenomicFeatures._col_tissue; GenomicFeatures._col_msi; GenomicFeatures._col_sample].

(** A column whose total does not exceed the threshold. *)
Definition low_total (required : Q) (c : string * list cell) : bool :=
  match Pandas.sum (snd c) with
  | Ok s => Qle_bool s required
  | Raise _ => false
  end.

(** The common shape of [drop_tissue_in] and [keep_tissue_in], for a mask
    computed from the tissue column. *)
Definition select_rows (mk : list cell -> list bool) (self : object)
  : world -> result unit * object * world :=
  fun w =>
    let rebind :=
      do! d := load (df self) in
      do! col := lift (Pandas.getitem GenomicFeatures._col_tissue d) in
      new (Pandas.getitem_mask (mk col) d) in
    match rebind w with
    | (Raise e, w1) => (Raise e, self, w1)
    | (Ok l, w1) =>
        let self' := {| _sep := _sep self; df := l |} in
        let '(r, w2) := GenomicFeatures._cleanup self' 0 w1 in
        (r, self', w2)
    end.

(** A table with a boolean mask applied to each of its columns. *)
Definition masked (m : list bool) (t : table) : table :=
  map (fun c => (fst c, Pandas.compress m (snd c))) t.

(** Every cell of a feature column is a nonnegative number. *)
Definition nonneg_features (d : DataFrame) : Prop :=
  forall c x, In c (data d) -> special (fst c) = false -> In x (snd c) ->
              exists q, x = CNum q /\ (0 <= q)%Q.

(** The outcome of a tissue filter on a frame [d] with nonnegative features:
    the call returns, every feature column left has a nonzero entry, and the
    informative columns of [d] are still there. *)
Definition pruned (d : DataFrame) (out : result unit * object * world) : Prop :=
  exists self' w' d',
    out = (Ok tt, self', w') /\
    frames w' !! df self' = Some d' /\
    (forall c, In c (data d') -> special (fst c) = false ->
               exists q, In (CNum q) (snd c) /\ ~ (q == 0)%Q) /\
    (forall k, special k = true -> In k (columns d) -> In k (columns d')).

(** [x.startswith('Drug_') is False] *)
Definition not_drug (x : string) : bool := negb (String.prefix "Drug_" x).

(** The labels left once the columns starting with [Drug_] are removed. *)
Definition kept_columns (cols : list string) : list string :=
  List.filter not_drug cols.

(** The compulsory columns, in the order the constructor checks them. *)
Definition required : list string :=
  [GenomicFeatures._col_tissue; GenomicFeatures._col_sample; GenomicFeatures._col_msi].

(** The three compulsory columns are among the labels left. *)
Definition required_present (cols : list string) : bool :=
  forallb (fun name => existsb (String.eqb name) (kept_columns cols)) required.

(** The end of the constructor, once a dataframe is bound to [self.df]. *)
Definition check_columns (l0 : loc) : M object :=
  do! d := load l0 in
  do! sel := lift (Pandas.getitem_list (List.filter not_drug (columns d)) d) in
  do! l := new sel in
  if forallb (fun name => Pandas.has_column name sel) required then
    ret {| _sep := Reader.default_sep; df := l |}
  else raise AssertionError.

(** [r.to_csv(filename)] followed by the construction of an object of the
    same class from [filename], with the separator of [r]. *)
Definition IC50_roundtrip (tl : text_layer) (r : object) (filename : string) : M object :=
  do! _ := Reader.to_csv tl r filename None in
  IC50.__init__ (VStr filename) (_sep r).

(** The same for a [GenomicFeatures]. *)
Definition GenomicFeatures_roundtrip (tl : text_layer) (g : object) (filename : string)
  : M object :=
  do! _ := Reader.to_csv tl g filename None in
  GenomicFeatures.__init__ (VStr filename) (_sep g).

(** A cell of a column of numbers whose text is read back as the cell: a
    missing value, or a number whose text is no missing value and reads as
    that number. *)
Definition number_cell (tl : text_layer) (c : cell) : Prop :=
  match c with
  | CNaN => True
  | CNum q => PandasIO.is_na (number_text tl q) = false /\
              text_number tl (number_text tl q) = Some q
  | CStr _ => False
  end.

(** A cell of a column of strings whose text is read back as the cell: a
    missing value, or a string that does not stand for one. *)
Definition string_cell (c : cell) : Prop :=
  match c with
  | CNaN => True
  | CStr s => PandasIO.is_na s = false
  | CNum _ => False
  end.

(** A column the parser gives the type it had: numbers and missing values;
    or strings and missing values, with a string that does not read as a
    number and a string that is not a boolean. *)
Definition plain_column (tl : text_layer) (col : list cell) : Prop :=
  Forall (number_cell tl) col \/
  (Forall string_cell col /\
   (exists s, In (CStr s) col /\ text_number tl s = None) /\
   (exists s, In (CStr s) col /\ PandasIO.is_bool s = false)).

(** Every column of the frame, its index included, is one. *)
Definition text_safe (tl : text_layer) (d : DataFrame) : Prop :=
  plain_column tl (index d) /\ Forall (fun c => plain_column tl (snd c)) (data d).

(** The state after [d.to_csv(filename, sep=sep)] returns, for a frame
    whose columns are read back from their text as they were written. *)
Definition written (d : DataFrame) (filename sep : string) (w : world) : world :=
  {| frames := frames w;
     files := <[filename := {| file_sep := sep;
                               file_table := (default "" (index_name d), index d) :: data d |}]>
                (files w);
     resplit := resplit w |}.

(** ** Vocabulary of the further properties *)

(** The first half of [GenomicFeatures.__init__]: the dataframe bound to
    [self.df] before the [Drug_] columns are removed. *)
Definition bind_frame (filename : value) : M loc :=
  match filename with
  | VNone =>
      do! raw := PandasIO.read_csv
                   (get_share_file "gdsctools" "data" "genomic_features.tsv")
                   Reader.default_sep in
      do! l := new raw in
      if Pandas.has_column "COSMIC ID" raw then
        do! d := lift (Pandas.set_index "COSMIC ID" raw) in
        do! _ := store l d in
        ret l
      else raise AssertionError
  | VStr name =>
      do! raw := PandasIO.read_csv name Reader.default_sep in
      do! l := new raw in
      if Pandas.has_column "COSMIC ID" raw then
        do! d := lift (Pandas.set_index "COSMIC ID" raw) in
        do! _ := store l d in
        ret l
      else raise AssertionError
  | v => GenomicFeatures.bind_df v
  end.

(** The shape of the frame a [GenomicFeatures] holds: one cell per row in
    every column, unique labels, the three compulsory columns. *)
Definition well_formed (d : DataFrame) : Prop :=
  rectangular d /\
  List.NoDup (columns d) /\
  forall name, In name required -> In name (columns d).

(** A state extends another one: same files, the same frames at the same
    places, and possibly new frames after them. *)
Definition extends (w w' : world) : Prop :=
  files w' = files w /\ exists fresh, frames w' = frames w ++ fresh.

(** No cell of the frame is a string. *)
Definition numeric (d : DataFrame) : Prop :=
  forall c x s, In c (data d) -> In x (snd c) -> x <> CStr s.

(** The frame [_cleanup] leaves when it returns: the informative columns
    and the columns whose total exceeds the threshold. *)
Definition prune (required_features : Q) (d : DataFrame) : DataFrame :=
  {| index_name := index_name d;
     index := index d;
     data := List.filter
               (fun c => special (fst c) || negb (low_total required_features c))%bool
               (data d) |}.

(** The columns [_cleanup] totals. *)
Definition view (d : DataFrame) : table :=
  List.filter (fun c => negb (special (fst c))) (data d).

(** What a tissue filter leaves for the rows selected by [m]: the pruned
    frame when the totals exist, the selected rows as they are otherwise. *)
Definition filtered (m : list bool) (d : DataFrame) : DataFrame :=
  match GenomicFeatures.sums (view (Pandas.getitem_mask m d)) with
  | Ok _ => prune 0 (Pandas.getitem_mask m d)
  | Raise _ => Pandas.getitem_mask m d
  end.

(** ** Sample data *)

Module Sample.

(** A genomic-features matrix with one drug column. *)
Definition features_table : table :=
  [("COSMIC ID", [CNum 905; CNum 906; CNum 907]);
   ("Tissue Factor Value", [CStr "lung"; CStr "skin"; CStr "lung"]);
   ("Sample Name", [CStr "A549"; CStr "A375"; CStr "H23"]);
   ("MS-instability Factor Value", [CNum 0; CNum 0; CNum 0]);
   ("Drug_1_IC50", [CNum (1 # 2); CNaN; CNum 3]);
   ("BRAF_mut", [CNum 0; CNum 1; CNum 0]);
   ("TP53_mut", [CNum 1; CNum 0; CNum 1])].

(** The same matrix without its [COSMIC ID] column. *)
Definition anonymous_table : table := tl features_table.

Definition disk : gmap string csv_file :=
  <["features.tsv" := {| file_sep := tab; file_table := features_table |}]>
  (<["anonymous.tsv" := {| file_sep := tab; file_table := anonymous_table |}]>
  (<[get_share_file "gdsctools" "data" "genomic_features.tsv" :=
       {| file_sep := tab; file_table := features_table |}]> ∅)).

Definition w0 : world :=
  {| frames := []; files := disk; resplit := fun f _ => file_table f |}.

(** The frame a [GenomicFeatures] holds after reading [features_table],
    the object holding it and the state it lives in. *)
Definition features_frame : DataFrame :=
  {| index_name := Some "COSMIC ID";
     index := [CNum 905; CNum 906; CNum 907];
     data := [("Tissue Factor Value", [CStr "lung"; CStr "skin"; CStr "lung"]);
              ("Sample Name", [CStr "A549"; CStr "A375"; CStr "H23"]);
              ("MS-instability Factor Value", [CNum 0; CNum 0; CNum 0]);
              ("BRAF_mut", [CNum 0; CNum 1; CNum 0]);
              ("TP53_mut", [CNum 1; CNum 0; CNum 1])] |}.

Definition gf : object := {| _sep := tab; df := 0 |}.

(** A frame of drug responses, as an [IC50] holds it. *)
Definition ic50_frame : DataFrame :=
  {| index_name := Some "COSMIC ID";
     index := [CNum 905; CNum 906];
     data := [("Drug_1_IC50", [CNaN; CNum 1]);
              ("Drug_2_IC50", [CNum 2; CNum 3])] |}.

Definition w_ic50 : world :=
  {| frames := [ic50_frame]; files := disk; resplit := fun f _ => file_table f |}.

Definition w_gf : world :=
  {| frames := [features_frame]; files := disk; resplit := fun f _ => file_table f |}.

(** A text of numbers for the integers: their decimal numeral, read back
    with its sign and leading zeros; other numbers are written as a
    fraction, which does not read as a number. *)
Definition text : text_layer :=
  {| number_text := fun q =>
       match Qden q with
       | xH => NilZero.string_of_int (Z.to_int (Qnum q))
       | _ => NilZero.string_of_int (Z.to_int (Qnum q)) +:+ "/"
              +:+ NilZero.string_of_int (Z.to_int (Zpos (Qden q)))
       end;
     text_number := fun t =>
       match NilEmpty.int_of_string t with
       | Some i => Some (inject_Z (Z.of_int i))
       | None => None
       end |}.

(** A file of drug responses whose header repeats the field [Drug_1] next
    to a field [Drug_1.1]. *)
Definition repeated_table : table :=
  [("COSMIC ID", [CNum 905; CNum 906]);
   ("Drug_1", [CNum 1; CNum 2]);
   ("Drug_1", [CNum 3; CNum 4]);
   ("Drug_1.1", [CNum 5; CNum 6])].

Definition w_repeated : world :=
  {| frames := [];
     files := {["repeated.tsv" := {| file_sep := tab; file_table := repeated_table |}]};
     resplit := fun f _ => file_table f |}.

(** A file of genomic features separated by commas: read with a
    tabulation, each line is one field. *)
Definition comma_table : table :=
  [("COSMIC ID", [CNum 905]);
   ("Tissue Factor Value", [CStr "lung"]);
   ("Sample Name", [CStr "A549"]);
   ("MS-instability Factor Value", [CNum 0])].

Definition comma_lines : table :=
  [("COSMIC ID,Tissue Factor Value,Sample Name,MS-instability Factor Value",
    [CStr "905,lung,A549,0"])].

Definition w_comma : world :=
  {| frames := [];
     files := {["features.csv" := {| file_sep := ","; file_table := comma_table |}]};
     resplit := fun _ _ => comma_lines |}.

(** A frame of drug responses whose identifiers are strings of digits. *)
Definition coded_frame : DataFrame :=
  {| index_name := Some "COSMIC ID";
     index := [CStr "007"; CStr "NA"];
     data := [("Drug_1_IC50", [CNum 1; CNum 2])] |}.

Definition w_coded : world :=
  {| frames := [coded_frame]; files := disk; resplit := fun f _ => file_table f |}.

End Sample.

(** * Properties *)

(** ** Column lookup *)

Section Lookup.
Import Pandas.

Lemma has_column_In k d : has_column k d = true <-> In k (columns d).
Proof.
  unfold has_column. rewrite existsb_exists. split.
  - intros (x & Hx & He). apply String.eqb_eq in He. now subst.
  - intros H. exists k. split; [assumption | apply String.eqb_refl].
Qed.

Lemma has_column_false k d : has_column k d = false <-> ~ In k (columns d).
Proof.
  rewrite <- has_column_In. destruct (has_column k d); split; intros H;
    try reflexivity; try discriminate; try (intros ?; discriminate).
  exfalso. now apply H.
Qed.

Lemma find_label_None k (t : table) :
  ~ In k (map fst t) -> List.find (label_eqb k) t = None.
Proof.
  induction t as [|c t IH]; simpl; intros H; [reflexivity|].
  unfold label_eqb at 1. destruct (String.eqb_spec k (fst c)) as [->|Hne].
  - exfalso. apply H. now left.
  - apply IH. intros Hin. apply H. now right.
Qed.

Lemma find_label_Some k (t : table) :
  In k (map fst t) -> exists col, List.find (label_eqb k) t = Some (k, col).
Proof.
  induction t as [|[n col] t IH]; simpl; intros H; [contradiction|].
  unfold label_eqb at 1. simpl. destruct (String.eqb_spec k n) as [->|Hne].
  - now exists col.
  - apply IH. destruct H as [H|H]; [congruence | assumption].
Qed.

Lemma getitem_present k d :
  has_column k d = true -> exists col, getitem k d = Ok col /\
                                       List.find (label_eqb k) (data d) = Some (k, col).
Proof.
  intros H. apply has_column_In in H.
  destruct (find_label_Some _ _ H) as [col Hc].
  exists col. unfold getitem. now rewrite Hc.
Qed.

(** With unique labels, selecting one label yields one column. *)
Lemma filter_label_absent k (t : table) :
  ~ In k (map fst t) -> List.filter (label_eqb k) t = [].
Proof.
  induction t as [|c t IH]; simpl; intros H; [reflexivity|].
  unfold label_eqb at 1. destruct (String.eqb_spec k (fst c)) as [->|Hne].
  - exfalso. apply H. now left.
  - apply IH. intros Hin. apply H. now right.
Qed.

Lemma filter_label_unique (pre : table) c (post : table) :
  List.NoDup (map fst (pre ++ c :: post)) ->
  List.filter (label_eqb (fst c)) (pre ++ c :: post) = [c].
Proof.
  intros Hnd. rewrite List.filter_app. simpl.
  rewrite List.map_app in Hnd. simpl in Hnd.
  pose proof (List.NoDup_remove_2 _ _ _ Hnd) as Hnotin.
  rewrite List.in_app_iff in Hnotin.
  rewrite filter_label_absent by tauto.
  unfold label_eqb at 1. rewrite String.eqb_refl.
  rewrite filter_label_absent by tauto. reflexivity.
Qed.

(** Selecting, in frame order, the labels that satisfy [P] keeps exactly
    the columns whose label satisfies [P]. *)
Lemma select_filtered_labels (P : string -> bool) (pre post : table) :
  List.NoDup (map fst (pre ++ post)) ->
  flat_map (fun k => List.filter (label_eqb k) (pre ++ post))
           (List.filter P (map fst post))
  = List.filter (fun c => P (fst c)) post.
Proof.
  revert pre. induction post as [|c post IH]; intros pre Hnd; [reflexivity|].
  simpl. assert (Hrest :
    flat_map (fun k => List.filter (label_eqb k) (pre ++ c :: post))
             (List.filter P (map fst post))
    = List.filter (fun c0 => P (fst c0)) post).
  { specialize (IH (pre ++ [c])). rewrite <- List.app_assoc in IH.
    simpl in IH. now apply IH. }
  destruct (P (fst c)); simpl.
  - rewrite filter_label_unique by assumption. simpl. now rewrite Hrest.
  - exact Hrest.
Qed.

Lemma forallb_has_column_filter (P : string -> bool) d :
  forallb (fun k => has_column k d) (List.filter P (columns d)) = true.
Proof.
  apply forallb_forall. intros k Hk. apply List.filter_In in Hk.
  apply has_column_In. tauto.
Qed.

Lemma Drug_not_cosmic x : String.prefix "Drug" x = true -> String.eqb "COSMIC ID" x = false.
Proof.
  intros H. destruct (String.eqb_spec "COSMIC ID" x) as [<-|]; [discriminate | reflexivity].
Qed.

Lemma filter_true {A} (l : list A) : List.filter (fun _ => true) l = l.
Proof. induction l as [|x l IH]; simpl; [reflexivity | now rewrite IH]. Qed.

Lemma filter_filter_id {A} (P Q : A -> bool) (l : list A) :
  (forall x, P x = true -> Q x = true) ->
  List.filter Q (List.filter P l) = List.filter P l.
Proof.
  intros H. induction l as [|x l IH]; simpl; [reflexivity|].
  destruct (P x) eqn:E; simpl; [rewrite (H _ E), IH | exact IH]; reflexivity.
Qed.

End Lookup.

(** Distinctness of the labels of a concrete table. *)
Ltac distinct_labels :=
  unfold columns; simpl; repeat constructor; simpl; intuition discriminate.

(** Unfolding of the monadic plumbing. *)
Ltac mrun :=
  unfold mbind, lift, ret, raise, new, load, store in *; simpl in *.

Lemma read_csv_pure filename sep w r w' :
  PandasIO.read_csv filename sep w = (r, w') -> w' = w.
Proof.
  unfold PandasIO.read_csv. intros H.
  destruct (files w !! filename) as [f|]; [|now inversion H].
  destruct (if String.eqb sep (file_sep f) then file_table f else resplit w f sep);
    now inversion H.
Qed.

(** ** Required column [COSMIC ID] *)

(** C2.  A file whose parsed header has no column [COSMIC ID] is refused by
    both constructors: [IC50] raises [KeyError] when it selects the column,
    [GenomicFeatures] (which always reads with the default separator) fails
    its assertion.  No object is returned. *)
Theorem missing_cosmic_id_raises (w : world) (filename : string) :
  (forall sep raw w1,
      PandasIO.read_csv filename sep w = (Ok raw, w1) ->
      Pandas.has_column "COSMIC ID" raw = false ->
      fst (IC50.__init__ (VStr filename) sep w) = Raise KeyError) /\
  (forall sep raw w1,
      PandasIO.read_csv filename Reader.default_sep w = (Ok raw, w1) ->
      Pandas.has_column "COSMIC ID" raw = false ->
      fst (GenomicFeatures.__init__ (VStr filename) sep w) = Raise AssertionError).
Proof.
  split; intros sep raw w1 Hread Hno.
  - pose proof (read_csv_pure _ _ _ _ _ Hread) as ->.
    unfold IC50.__init__. mrun. rewrite Hread. simpl.
    unfold Pandas.getitem_list. simpl. now rewrite Hno.
  - pose proof (read_csv_pure _ _ _ _ _ Hread) as ->.
    unfold GenomicFeatures.__init__. mrun. rewrite Hread. simpl.
    now rewrite Hno.
Qed.

Lemma missing_cosmic_id_raises_witness :
  fst (IC50.__init__ (VStr "anonymous.tsv") tab Sample.w0) = Raise KeyError /\
  fst (GenomicFeatures.__init__ (VStr "anonymous.tsv") "," Sample.w0) = Raise AssertionError.
Proof.
  destruct (missing_cosmic_id_raises Sample.w0 "anonymous.tsv") as [Hic Hgf].
  split.
  - apply (Hic tab
             {| index_name := None;
                index := PandasIO.RangeIndex 3;
                data := Sample.anonymous_table |}
             Sample.w0); reflexivity.
  - apply (Hgf ","
             {| index_name := None;
                index := PandasIO.RangeIndex 3;
                data := Sample.anonymous_table |}
             Sample.w0); reflexivity.
Defined.

(** ** Columns of an [IC50] read from a file *)

Lemma filter_map_fst (P : string -> bool) (t : table) :
  map fst (List.filter (fun c => P (fst c)) t) = List.filter P (map fst t).
Proof.
  induction t as [|c t IH]; simpl; [reflexivity|].
  destruct (P (fst c)); simpl; now rewrite IH.
Qed.

Lemma lookup_store_new {A} (l : list A) (x y : A) :
  (<[length l := y]> (l ++ [x])) !! length l = Some y.
Proof.
  apply list_lookup_insert_eq. rewrite length_app. simpl. lia.
Qed.

Lemma lookup_new {A} (l : list A) (x : A) : (l ++ [x]) !! length l = Some x.
Proof.
  rewrite lookup_app_r by lia. now rewrite Nat.sub_diag.
Qed.

(** *** Labels the parser delivers *)

Section Header.
Import PandasIO.

Lemma suffixed_not_cosmic (n t : string) : n +:+ "." +:+ t <> "COSMIC ID".
Proof.
  intros H.
  do 9 (destruct n as [|? n]; [discriminate H|]; simpl in H; injection H as _ H).
  destruct n; discriminate H.
Qed.

(** The label [COSMIC ID] is never the outcome of a renaming: it is
    delivered at most once, for the first header field of that name. *)
Lemma mangle_cosmic_once (seen names : list string) :
  List.NoDup (List.filter (String.eqb "COSMIC ID") (mangle_dupe_cols seen names)) /\
  (In "COSMIC ID" seen ->
   List.filter (String.eqb "COSMIC ID") (mangle_dupe_cols seen names) = []).
Proof.
  revert seen. induction names as [|n names IH]; intros seen; [split; [constructor | reflexivity]|].
  destruct (IH (n :: seen)) as [IHnd IHin].
  cbn [mangle_dupe_cols List.filter].
  set (k := length (List.filter (String.eqb n) seen)).
  destruct (Nat.eqb k 0) eqn:Hk.
  - destruct (String.eqb_spec "COSMIC ID" n) as [<-|Hne].
    + assert (Hnot : ~ In "COSMIC ID" seen).
      { intros Hin. apply Nat.eqb_eq in Hk. unfold k in Hk.
        apply List.length_zero_iff_nil in Hk.
        assert (Hf : In "COSMIC ID" (List.filter (String.eqb "COSMIC ID") seen))
          by (apply List.filter_In; split; [exact Hin | apply String.eqb_refl]).
        rewrite Hk in Hf. contradiction. }
      rewrite IHin by now left. split; [repeat constructor; intros []|].
      intros Hin. contradiction.
    + split; [exact IHnd|]. intros Hin. apply IHin. now right.
  - destruct (String.eqb_spec "COSMIC ID" (n +:+ "." +:+ decimal k)) as [Heq|_].
    + exfalso. symmetry in Heq. now apply suffixed_not_cosmic in Heq.
    + split; [exact IHnd|]. intros Hin. apply IHin. now right.
Qed.

Lemma length_fill_unnamed (i : nat) (names : list string) :
  length (fill_unnamed i names) = length names.
Proof.
  revert i. induction names as [|n names IH]; intros i; simpl; [reflexivity|].
  now rewrite IH.
Qed.

Lemma length_mangle_dupe_cols (seen names : list string) :
  length (mangle_dupe_cols seen names) = length names.
Proof.
  revert seen. induction names as [|n names IH]; intros seen; simpl; [reflexivity|].
  now rewrite IH.
Qed.

Lemma map_fst_combine {A B} (l : list A) (l' : list B) :
  length l = length l' -> map fst (combine l l') = l.
Proof.
  revert l'. induction l as [|a l IH]; intros [|b l'] H; simpl in *;
    try reflexivity; try discriminate.
  f_equal. apply IH. now injection H.
Qed.

(** The labels of a frame read from a file are a parsed header. *)
Lemma read_csv_columns filename sep w raw w1 :
  read_csv filename sep w = (Ok raw, w1) ->
  exists names, columns raw = parse_header names.
Proof.
  unfold read_csv. intros H.
  destruct (files w !! filename) as [f|]; [|discriminate H].
  destruct (if String.eqb sep (file_sep f) then file_table f else resplit w f sep)
    as [|c t]; [discriminate H|].
  injection H as <- _. exists (map fst (c :: t)).
  apply (map_fst_combine (parse_header (map fst (c :: t))) (map snd (c :: t))).
  unfold parse_header.
  now rewrite length_mangle_dupe_cols, length_fill_unnamed, !length_map.
Qed.

Lemma read_csv_cosmic_once filename sep w raw w1 :
  read_csv filename sep w = (Ok raw, w1) ->
  List.NoDup (List.filter (String.eqb "COSMIC ID") (columns raw)).
Proof.
  intros H. destruct (read_csv_columns _ _ _ _ _ H) as [names ->].
  apply mangle_cosmic_once.
Qed.

End Header.

(** A label that occurs once selects one column. *)
Lemma filter_label_once k col (t : table) :
  List.NoDup (List.filter (String.eqb k) (map fst t)) ->
  List.find (Pandas.label_eqb k) t = Some (k, col) ->
  List.filter (Pandas.label_eqb k) t = [(k, col)].
Proof.
  induction t as [|c t IH]; intros Hnd Hfind; [discriminate Hfind|].
  cbn [map List.filter List.find] in *. unfold Pandas.label_eqb at 1 in Hfind.
  unfold Pandas.label_eqb at 1.
  destruct (String.eqb k (fst c)) eqn:E.
  - injection Hfind as ->. f_equal.
    apply filter_label_absent. intros Hin.
    inversion Hnd as [|? ? Hnotin _]; subst. apply Hnotin.
    apply List.filter_In. cbn [fst] in *. apply String.eqb_eq in E. subst.
    split; [exact Hin | apply String.eqb_refl].
  - now apply IH.
Qed.

Lemma filter_label_within (P : string -> bool) k (t : table) :
  P k = true ->
  List.filter (Pandas.label_eqb k) (List.filter (fun c => P (fst c)) t)
  = List.filter (Pandas.label_eqb k) t.
Proof.
  intros HP. induction t as [|c t IH]; [reflexivity|].
  cbn [List.filter]. destruct (P (fst c)) eqn:E.
  - cbn [List.filter]. destruct (Pandas.label_eqb k c); now rewrite IH.
  - unfold Pandas.label_eqb at 2. destruct (String.eqb_spec k (fst c)) as [->|_];
      [congruence | exact IH].
Qed.

Lemma flat_map_ext_In {A B} (f g : A -> list B) (l : list A) :
  (forall a, In a l -> f a = g a) -> flat_map f l = flat_map g l.
Proof.
  induction l as [|a l IH]; intros H; simpl; [reflexivity|].
  rewrite (H a (or_introl eq_refl)). f_equal. apply IH. intros b Hb. apply H. now right.
Qed.

(** Selecting, in frame order, the labels that satisfy [P], none of them
    repeated, keeps exactly the columns whose label satisfies [P]. *)
Lemma select_unique_labels (P : string -> bool) (t : table) :
  List.NoDup (List.filter P (map fst t)) ->
  flat_map (fun k => List.filter (Pandas.label_eqb k) t) (List.filter P (map fst t))
  = List.filter (fun c => P (fst c)) t.
Proof.
  intros Hnd. rewrite <- filter_map_fst in *.
  set (t' := List.filter (fun c => P (fst c)) t) in *.
  rewrite (flat_map_ext_In _ (fun k => List.filter (Pandas.label_eqb k) t')).
  - pose proof (select_filtered_labels (fun _ => true) [] t') as H.
    cbn [app] in H. rewrite !filter_true in H. now apply H.
  - intros k Hk. symmetry. apply filter_label_within.
    apply List.in_map_iff in Hk as (c & <- & Hc).
    now apply List.filter_In in Hc.
Qed.

(** The outcome of [IC50.__init__] on a file: the frame of the new object
    is indexed by the [COSMIC ID] column and holds the columns whose label
    starts with [Drug]; the frames allocated before are untouched. *)
Lemma IC50_init_file (w : world) (filename sep : string) (raw : DataFrame) (w1 : world)
    (cosmic : list cell) :
  PandasIO.read_csv filename sep w = (Ok raw, w1) ->
  List.NoDup (List.filter (String.prefix "Drug") (columns raw)) ->
  List.find (Pandas.label_eqb "COSMIC ID") (data raw) = Some ("COSMIC ID", cosmic) ->
  exists self w',
    IC50.__init__ (VStr filename) sep w = (Ok self, w') /\
    frames w' !! df self
    = Some {| index_name := Some "COSMIC ID"; index := cosmic;
              data := List.filter (fun c => String.prefix "Drug" (fst c)) (data raw) |} /\
    forall l, l < length (frames w) -> frames w' !! l = frames w !! l.
Proof.
  intros Hread Hnd Hfind.
  pose proof (read_csv_pure _ _ _ _ _ Hread) as ->.
  assert (Hcos : Pandas.has_column "COSMIC ID" raw = true).
  { apply has_column_In. apply List.find_some in Hfind as [Hin _].
    unfold columns. now apply (List.in_map fst) in Hin. }
  set (drugs := List.filter (fun c => String.prefix "Drug" (fst c)) (data raw)).
  set (d := {| index_name := Some "COSMIC ID"; index := cosmic; data := drugs |}).
  assert (Hsel : Pandas.getitem_list
                   ("COSMIC ID" :: List.filter (String.prefix "Drug") (columns raw)) raw
                 = Ok {| index_name := index_name raw; index := index raw;
                         data := ("COSMIC ID", cosmic) :: drugs |}).
  { unfold Pandas.getitem_list. simpl. rewrite Hcos.
    rewrite forallb_has_column_filter. simpl.
    rewrite (filter_label_once _ _ _ (read_csv_cosmic_once _ _ _ _ _ Hread) Hfind). simpl.
    pose proof (select_unique_labels (String.prefix "Drug") (data raw) Hnd) as Hflat.
    unfold columns. now rewrite Hflat. }
  assert (Hidx : Pandas.set_index "COSMIC ID"
                   {| index_name := index_name raw; index := index raw;
                      data := ("COSMIC ID", cosmic) :: drugs |} = Ok d).
  { unfold Pandas.set_index, Pandas.getitem. simpl. unfold d. f_equal. f_equal.
    unfold drugs. apply filter_filter_id.
    intros c Hc. unfold Pandas.label_eqb. now rewrite Drug_not_cosmic. }
  eexists _, _.
  split.
  { unfold IC50.__init__. unfold mbind at 1. rewrite Hread.
    unfold mbind, lift, new, store, ret. rewrite Hsel, Hidx. reflexivity. }
  cbn [frames df]. split; [apply lookup_store_new|].
  intros l Hl. rewrite list_lookup_insert_ne by (rewrite length_app; simpl; lia).
  rewrite <- List.app_assoc. now apply lookup_app_l.
Qed.

(** C10, as the code has it.  An [IC50] built from a file with a
    [COSMIC ID] column, in which no parsed label starting with [Drug] is
    repeated, is indexed by that column, and its columns are the parsed
    columns whose label starts with [Drug], in their order and with their
    cells; no other column is kept. *)
Theorem IC50_from_file_columns (w : world) (filename sep : string)
    (raw : DataFrame) (w1 : world) :
  PandasIO.read_csv filename sep w = (Ok raw, w1) ->
  Pandas.has_column "COSMIC ID" raw = true ->
  List.NoDup (List.filter (String.prefix "Drug") (columns raw)) ->
  exists self w' d cosmic,
    IC50.__init__ (VStr filename) sep w = (Ok self, w') /\
    frames w' !! df self = Some d /\
    IC50.drugIds self w' = (Ok (List.filter (String.prefix "Drug") (columns raw)), w') /\
    Pandas.getitem "COSMIC ID" raw = Ok cosmic /\
    index_name d = Some "COSMIC ID" /\
    index d = cosmic /\
    data d = List.filter (fun c => String.prefix "Drug" (fst c)) (data raw) /\
    (forall x, In x (columns d) <-> In x (columns raw) /\ String.prefix "Drug" x = true).
Proof.
  intros Hread Hcos Hnd.
  destruct (getitem_present _ _ Hcos) as (cosmic & Hget & Hfind).
  destruct (IC50_init_file _ _ _ _ _ _ Hread Hnd Hfind) as (self & w' & Hinit & Hlook & _).
  set (d := {| index_name := Some "COSMIC ID"; index := cosmic;
               data := List.filter (fun c => String.prefix "Drug" (fst c)) (data raw) |})
    in *.
  assert (Hcols : columns d = List.filter (String.prefix "Drug") (columns raw)).
  { unfold columns, d. cbn [data]. apply filter_map_fst. }
  exists self, w', d, cosmic.
  split; [exact Hinit|]. split; [exact Hlook|].
  split.
  { unfold IC50.drugIds, mbind, load, ret. rewrite Hlook, Hcols. reflexivity. }
  do 4 (split; [assumption || reflexivity|]).
  intros x. rewrite Hcols, List.filter_In. reflexivity.
Qed.

Lemma IC50_from_file_columns_witness :
  exists self w' d,
    IC50.__init__ (VStr "features.tsv") tab Sample.w0 = (Ok self, w') /\
    frames w' !! df self = Some d /\
    index_name d = Some "COSMIC ID" /\
    columns d = ["Drug_1_IC50"].
Proof.
  destruct (IC50_from_file_columns Sample.w0 "features.tsv" tab
              {| index_name := None;
                 index := PandasIO.RangeIndex 3;
                 data := Sample.features_table |}
              Sample.w0)
    as (self & w' & d & cosmic & Hinit & Hd & _ & _ & Hname & _ & Hdata & _).
  - reflexivity.
  - reflexivity.
  - distinct_labels.
  - exists self, w', d. repeat split; try assumption.
    unfold columns. rewrite Hdata. reflexivity.
Defined.

(** C10 as stated fails: the parser renames a repeated header field by
    giving it a numbered suffix, and the new label can be that of another
    field.  In [repeated.tsv] the second [Drug_1] becomes [Drug_1.1], which
    is also the label of the last column; selecting the labels one by one
    then takes both columns twice.  The file has three drug columns and the
    [IC50] has five. *)
Lemma IC50_repeated_drug_label :
  exists raw self w' d,
    PandasIO.read_csv "repeated.tsv" tab Sample.w_repeated = (Ok raw, Sample.w_repeated) /\
    Pandas.has_column "COSMIC ID" raw = true /\
    columns raw = ["COSMIC ID"; "Drug_1"; "Drug_1.1"; "Drug_1.1"] /\
    IC50.__init__ (VStr "repeated.tsv") tab Sample.w_repeated = (Ok self, w') /\
    frames w' !! df self = Some d /\
    columns d = ["Drug_1"; "Drug_1.1"; "Drug_1.1"; "Drug_1.1"; "Drug_1.1"] /\
    columns d <> List.filter (String.prefix "Drug") (columns raw) /\
    IC50.drugIds self w' <> (Ok (List.filter (String.prefix "Drug") (map fst Sample.repeated_table)), w').
Proof.
  eexists _, _, _, _.
  split; [vm_compute; reflexivity|].
  split; [reflexivity|]. split; [reflexivity|].
  split; [vm_compute; reflexivity|].
  split; [reflexivity|]. split; [reflexivity|].
  split; [discriminate|]. vm_compute. discriminate.
Qed.

(** ** Constructor inputs that are not supported *)

(** C4, as the code has it.  [IC50] raises [TypeError] on every input that
    is not a file name, an [IC50] or a dataframe, and leaves the state
    untouched.  [GenomicFeatures] raises ([AttributeError]) on every input
    from which it cannot bind a dataframe; [None] is not one of them, it
    selects the packaged file. *)
Theorem unsupported_input_raises (v : value) (sep : string) (w : world) :
  (IC50_input v = false -> IC50.__init__ v sep w = (Raise TypeError, w)) /\
  (GenomicFeatures_input v = false ->
   GenomicFeatures.__init__ v sep w = (Raise AttributeError, w)).
Proof.
  split; intros H.
  - destruct v; try discriminate; reflexivity.
  - destruct v as [| | |?|?|?|[?|]]; try discriminate; reflexivity.
Qed.

Lemma unsupported_input_raises_witness :
  IC50.__init__ (VInt 3) tab Sample.w0 = (Raise TypeError, Sample.w0) /\
  GenomicFeatures.__init__ (VInt 3) tab Sample.w0 = (Raise AttributeError, Sample.w0).
Proof.
  destruct (unsupported_input_raises (VInt 3) tab Sample.w0) as [Hic Hgf].
  split; [apply Hic | apply Hgf]; reflexivity.
Defined.

(** C4 as stated fails: [None] is no file name, reader instance or
    dataframe, and [GenomicFeatures(None)] builds an object from the
    packaged file. *)
Lemma None_is_accepted :
  ~ (forall v sep w,
        documented_input v = false ->
        raises (fst (IC50.__init__ v sep w)) /\
        raises (fst (GenomicFeatures.__init__ v sep w))).
Proof.
  intros H.
  destruct (H VNone tab Sample.w0 eq_refl) as [_ [e He]].
  vm_compute in He. discriminate He.
Qed.

(** ** Copies do not share their data *)

Lemma mutate_other l l' updates w :
  l <> l' -> frames (mutate l updates w) !! l' = frames w !! l'.
Proof.
  intros Hne. revert w. induction updates as [|d updates IH]; intros w; [reflexivity|].
  simpl. rewrite IH. simpl. now apply list_lookup_insert_ne.
Qed.

(** C9.  An [IC50] built from an [IC50] instance or from a dataframe holds
    a new dataframe with the same content, and no sequence of in-place
    updates of the new object's frame changes the frame it was built from. *)
Theorem IC50_copy_is_independent (v : value) (sep : string) (w : world)
    (l0 : loc) (d0 : DataFrame) :
  source_frame v = Some l0 ->
  frames w !! l0 = Some d0 ->
  exists b w',
    IC50.__init__ v sep w = (Ok b, w') /\
    df b <> l0 /\
    frames w' !! df b = Some d0 /\
    forall updates, frames (mutate (df b) updates w') !! l0 = Some d0.
Proof.
  intros Hsrc Hd0.
  assert (Hlt : l0 < length (frames w)) by (eapply lookup_lt_Some; eassumption).
  assert (Hinit : IC50.__init__ v sep w =
                  (Ok {| _sep := sep; df := length (frames w) |},
                   {| frames := frames w ++ [d0]; files := files w;
                      resplit := resplit w |})).
  { destruct v; try discriminate; simpl in Hsrc; injection Hsrc as Heq; subst l0;
      unfold IC50.__init__, mbind, load, new, ret; now rewrite Hd0. }
  eexists _, _. split; [exact Hinit|]. cbn [df frames].
  split; [lia|]. split; [apply lookup_new|].
  intros updates. rewrite mutate_other by lia. cbn [frames].
  rewrite lookup_app_l by assumption. exact Hd0.
Qed.

Lemma IC50_copy_is_independent_witness :
  exists b w',
    IC50.__init__ (VDataFrame 0) tab
      {| frames := [mkDataFrame (Some "COSMIC ID") [CNum 905] [("Drug_1_IC50", [CNaN])]];
         files := ∅; resplit := fun f _ => file_table f |} = (Ok b, w') /\
    df b <> 0 /\
    frames (mutate (df b) [mkDataFrame None [] []] w') !! 0
    = Some (mkDataFrame (Some "COSMIC ID") [CNum 905] [("Drug_1_IC50", [CNaN])]).
Proof.
  destruct (IC50_copy_is_independent (VDataFrame 0) tab
              {| frames := [mkDataFrame (Some "COSMIC ID") [CNum 905]
                                        [("Drug_1_IC50", [CNaN])]];
                 files := ∅; resplit := fun f _ => file_table f |}
              0 (mkDataFrame (Some "COSMIC ID") [CNum 905] [("Drug_1_IC50", [CNaN])]))
    as (b & w' & Hinit & Hne & _ & Hmut).
  - reflexivity.
  - reflexivity.
  - exists b, w'. split; [exact Hinit|]. split; [exact Hne|]. apply Hmut.
Defined.

(** ** The summary printed for an [IC50] *)

Lemma isnull_sum_total (d : DataFrame) :
  list_sum (Pandas.isnull_sum d) = null_cells d.
Proof.
  unfold Pandas.isnull_sum, null_cells, cells.
  induction (data d) as [|c t IH]; [reflexivity|].
  simpl. rewrite List.filter_app, length_app. now rewrite IH.
Qed.

Lemma append_assoc (s t u : string) : (s +:+ t) +:+ u = s +:+ (t +:+ u).
Proof.
  induction s as [|a s IH]; [reflexivity|].
  change (String a ((s +:+ t) +:+ u) = String a (s +:+ (t +:+ u))).
  now f_equal.
Qed.

(** C8.  For an [IC50] with at least one drug column and one row, the text
    of [__str__] reports the number of columns as the number of drugs, the
    number of rows as the number of cell lines, and as the percentage of NA
    the number of missing cells divided by (columns times rows). *)
Theorem IC50_str_reports (float_repr : pyfloat -> string)
    (self : object) (w : world) (d : DataFrame) :
  frames w !! df self = Some d ->
  0 < length (columns d) ->
  0 < nrows d ->
  IC50.__str__ float_repr self w =
  (Ok ("Number of drugs: " +:+ PandasIO.decimal (length (columns d)) +:+ newline +:+
       "Number of cell lines: " +:+ PandasIO.decimal (nrows d) +:+ newline +:+
       "Percentage of NA " +:+
       float_repr (FNum (inject_Z (Z.of_nat (null_cells d)) /
                         inject_Z (Z.of_nat (length (columns d) * nrows d)))%Q) +:+
       newline),
   w).
Proof.
  intros Hd Hcols Hrows.
  unfold IC50.__str__, IC50.drugIds, mbind, load, ret. rewrite Hd.
  cbv beta iota zeta. rewrite Hd. cbv beta iota zeta.
  rewrite isnull_sum_total.
  assert (HN : exists n, length (columns d) * nrows d = S n).
  { destruct (length (columns d) * nrows d) eqn:E; [nia | eauto]. }
  destruct HN as [n HN]. rewrite HN. unfold true_divide.
  f_equal. f_equal.
  rewrite !append_assoc. reflexivity.
Qed.

Lemma IC50_str_reports_witness :
  IC50.__str__ (fun _ => "0.25") {| _sep := tab; df := 0 |}
    {| frames := [mkDataFrame (Some "COSMIC ID") [CNum 905; CNum 906]
                    [("Drug_1_IC50", [CNaN; CNum 1]); ("Drug_2_IC50", [CNum 2; CNum 3])]];
       files := ∅; resplit := fun f _ => file_table f |}
  = (Ok ("Number of drugs: 2" +:+ newline +:+ "Number of cell lines: 2" +:+ newline +:+
         "Percentage of NA 0.25" +:+ newline),
     {| frames := [mkDataFrame (Some "COSMIC ID") [CNum 905; CNum 906]
                    [("Drug_1_IC50", [CNaN; CNum 1]); ("Drug_2_IC50", [CNum 2; CNum 3])]];
        files := ∅; resplit := fun f _ => file_table f |}).
Proof.
  apply (IC50_str_reports (fun _ => "0.25") {| _sep := tab; df := 0 |}
           {| frames := [mkDataFrame (Some "COSMIC ID") [CNum 905; CNum 906]
                    [("Drug_1_IC50", [CNaN; CNum 1]); ("Drug_2_IC50", [CNum 2; CNum 3])]];
              files := ∅; resplit := fun f _ => file_table f |}
           (mkDataFrame (Some "COSMIC ID") [CNum 905; CNum 906]
                    [("Drug_1_IC50", [CNaN; CNum 1]); ("Drug_2_IC50", [CNum 2; CNum 3])])).
  - reflexivity.
  - simpl. lia.
  - simpl. unfold nrows. simpl. lia.
Defined.

(** ** Rows of a frame *)

Section Rows.
Import Pandas.

Lemma compress_nil_r {A} (m : list bool) : compress m (@nil A) = [].
Proof. destruct m as [|[] m]; reflexivity. Qed.

Lemma compress_map_filter {A} (p : A -> bool) (l : list A) :
  compress (map p l) l = List.filter p l.
Proof.
  induction l as [|x l IH]; simpl; [reflexivity|].
  destruct (p x); now rewrite IH.
Qed.

Lemma compress_In {A} (m : list bool) (l : list A) (x : A) :
  In x (compress m l) -> In x l.
Proof.
  revert m. induction l as [|y l IH]; intros m H.
  - now rewrite compress_nil_r in H.
  - destruct m as [|[] m]; simpl in H; [contradiction| |].
    + destruct H as [->|H]; [now left | right; eauto].
    + right; eauto.
Qed.



Lemma find_label_map (g : list cell -> list cell) k col (cols : table) :
  List.find (label_eqb k) cols = Some (k, col) ->
  List.find (label_eqb k) (map (fun c => (fst c, g (snd c))) cols) = Some (k, g col).
Proof.
  induction cols as [|c cols IH]; simpl; [discriminate|].
  unfold label_eqb at 1 3. simpl. destruct (String.eqb k (fst c)) eqn:E.
  - intros [= ->]. reflexivity.
  - exact IH.
Qed.





End Rows.

(** ** Tissue filters and column pruning *)

Lemma drop_tissue_in_select self ts w :
  GenomicFeatures.drop_tissue_in self ts w
  = select_rows (fun col => map (fun b => Bool.eqb b false) (Pandas.isin (to_list ts) col))
                self w.
Proof. reflexivity. Qed.

Lemma keep_tissue_in_select self ts w :
  GenomicFeatures.keep_tissue_in self ts w
  = select_rows (Pandas.isin (to_list ts)) self w.
Proof. reflexivity. Qed.

Section Cleanup.
Import Pandas.

Lemma sum_raises (l : list cell) e : sum l = Raise e -> e = TypeError.
Proof.
  induction l as [|[|q|s] l IH]; simpl; intros H; try discriminate; auto.
  - destruct (sum l); simpl in H; [discriminate|]. apply IH. congruence.
  - congruence.
Qed.

Lemma sums_raises (cols : table) e : GenomicFeatures.sums cols = Raise e -> e = TypeError.
Proof.
  induction cols as [|c cols IH]; simpl; intros H; [discriminate|].
  destruct (sum (snd c)) eqn:Es; simpl in H.
  - destruct (GenomicFeatures.sums cols); simpl in H; [discriminate|].
    apply IH. congruence.
  - apply (sum_raises (snd c)). congruence.
Qed.

Lemma sums_Ok (cols : table) :
  (forall c, In c cols -> exists s, sum (snd c) = Ok s) ->
  exists total, GenomicFeatures.sums cols = Ok total.
Proof.
  induction cols as [|c cols IH]; intros H; simpl; [eauto|].
  destruct (H c (or_introl eq_refl)) as [s ->].
  destruct IH as [total ->]; [intros; apply H; now right|]. simpl. eauto.
Qed.

(** The labels selected by the comparison of the totals. *)
Lemma todrop_labels (f : Q -> bool) (cols : table) total :
  GenomicFeatures.sums cols = Ok total ->
  compress (map f total) (map fst cols)
  = map fst (List.filter (fun c => match sum (snd c) with
                                   | Ok s => f s
                                   | Raise _ => false
                                   end) cols).
Proof.
  revert total. induction cols as [|c cols IH]; intros total H; simpl in *.
  - injection H as <-. reflexivity.
  - destruct (sum (snd c)) as [s|] eqn:Es; simpl in H; [|discriminate].
    destruct (GenomicFeatures.sums cols) as [ss|] eqn:Ess; simpl in H; [|discriminate].
    injection H as <-. simpl. rewrite (IH ss eq_refl). now destruct (f s).
Qed.

(** What [_cleanup] leaves behind: the frame of [self] keeps the columns
    selected by some [keep], which holds of the three informative columns
    and, when the call returns, fails exactly on the other columns whose
    total is low. *)
Lemma cleanup_outcome (self : object) (required : Q) (w : world) (d1 : DataFrame) :
  frames w !! df self = Some d1 ->
  List.NoDup (columns d1) ->
  exists keep r w',
    GenomicFeatures._cleanup self required w = (r, w') /\
    (r = Ok tt \/ r = Raise TypeError) /\
    frames w' !! df self
    = Some {| index_name := index_name d1; index := index d1;
              data := List.filter (fun c => keep (fst c)) (data d1) |} /\
    (forall k, special k = true -> keep k = true) /\
    (r = Ok tt -> forall c, In c (data d1) -> special (fst c) = false ->
                 keep (fst c) = true -> low_total required c = false) /\
    ((forall c, In c (data d1) -> special (fst c) = false ->
                exists s, sum (snd c) = Ok s) -> r = Ok tt).
Proof.
  intros Hd1 Hnd.
  set (view := List.filter (fun c => negb (special (fst c))) (data d1)).
  assert (Hview : getitem_list
                    (List.filter (fun x => negb (special x)) (columns d1)) d1
                  = Ok {| index_name := index_name d1; index := index d1;
                          data := view |}).
  { unfold getitem_list. rewrite forallb_has_column_filter.
    pose proof (select_filtered_labels (fun x => negb (special x)) [] (data d1) Hnd)
      as Hflat.
    simpl in Hflat. unfold columns. now rewrite Hflat. }
  assert (Hlt : df self < length (frames w)) by (eapply lookup_lt_Some; eassumption).
  unfold GenomicFeatures._cleanup, mbind, load, lift, store.
  rewrite Hd1. fold (special). change (fun x : string => negb (existsb (String.eqb x)
      [GenomicFeatures._col_tissue; GenomicFeatures._col_msi;
       GenomicFeatures._col_sample])) with (fun x => negb (special x)).
  rewrite Hview. cbn [data].
  destruct (GenomicFeatures.sums view) as [total|e] eqn:Esums.
  - pose proof (todrop_labels (fun s => Qle_bool s required) view total Esums) as Htd.
    change (compress (map (fun s => Qle_bool s required) total) (map fst view)
            = map fst (List.filter (low_total required) view)) in Htd.
    change (columns {| index_name := index_name d1; index := index d1; data := view |})
      with (map fst view).
    rewrite Htd.
    set (todrop := map fst (List.filter (low_total required) view)).
    set (keep := fun k => negb (existsb (fun k' => String.eqb k' k) todrop)).
    assert (Hdrop : drop todrop d1
                    = Ok {| index_name := index_name d1; index := index d1;
                            data := List.filter (fun c => keep (fst c)) (data d1) |}).
    { unfold drop.
      assert (Hall : forallb (fun k => has_column k d1) todrop = true).
      { apply forallb_forall. intros k Hk. apply has_column_In.
        unfold todrop in Hk. apply List.in_map_iff in Hk as (c & <- & Hc).
        apply List.filter_In in Hc as [Hc _]. unfold view in Hc.
        apply List.filter_In in Hc as [Hc _]. now apply List.in_map. }
      now rewrite Hall. }
    rewrite Hdrop.
    exists keep, (Ok tt). eexists. split; [reflexivity|].
    split; [now left|]. cbn [frames].
    split; [now apply list_lookup_insert_eq|].
    split; [|split; [|reflexivity]].
    + intros k Hk. unfold keep. apply Bool.negb_true_iff.
      apply Bool.not_true_is_false. rewrite existsb_exists.
      intros (k' & Hin & He). apply String.eqb_eq in He. subst k'.
      unfold todrop in Hin. apply List.in_map_iff in Hin as (c & Hc & Hin).
      apply List.filter_In in Hin as [Hin _]. unfold view in Hin.
      apply List.filter_In in Hin as [_ Hin]. rewrite Hc, Hk in Hin. discriminate.
    + intros _ c Hc Hsp Hkeep. destruct (low_total required c) eqn:Elow; [|reflexivity].
      exfalso. unfold keep in Hkeep. apply Bool.negb_true_iff in Hkeep.
      apply Bool.not_true_iff_false in Hkeep. apply Hkeep.
      apply existsb_exists. exists (fst c). split; [|apply String.eqb_refl].
      unfold todrop. apply List.in_map. apply List.filter_In. split; [|exact Elow].
      unfold view. apply List.filter_In. split; [exact Hc|]. now rewrite Hsp.
  - pose proof (sums_raises _ _ Esums) as ->.
    exists (fun _ => true), (Raise TypeError), w. split; [reflexivity|].
    split; [now right|]. rewrite filter_true.
    split; [destruct d1; exact Hd1|].
    split; [reflexivity|]. split; [discriminate|].
    intros Hnum. exfalso.
    destruct (sums_Ok view) as [total Ht]; [|congruence].
    intros c Hc. unfold view in Hc. apply List.filter_In in Hc as [Hc Hsp].
    apply Hnum; [exact Hc|]. now apply Bool.negb_true_iff.
Qed.

End Cleanup.

Section Filters.
Import Pandas.

Lemma masked_labels m t : map fst (masked m t) = map fst t.
Proof. unfold masked. rewrite map_map. reflexivity. Qed.

Lemma masked_In m t c :
  In c (masked m t) -> exists col, In (fst c, col) t /\ snd c = compress m col.
Proof.
  unfold masked. intros H. apply List.in_map_iff in H as ([k col] & <- & Hin).
  exists col. split; [exact Hin | reflexivity].
Qed.

Lemma select_rows_outcome (mk : list cell -> list bool) (self : object) (w : world)
    (d : DataFrame) (col : list cell) :
  frames w !! df self = Some d ->
  List.find (label_eqb GenomicFeatures._col_tissue) (data d)
  = Some (GenomicFeatures._col_tissue, col) ->
  List.NoDup (columns d) ->
  exists keep r self' w',
    select_rows mk self w = (r, self', w') /\
    (r = Ok tt \/ r = Raise TypeError) /\
    frames w' !! df self'
    = Some {| index_name := index_name d;
              index := compress (mk col) (index d);
              data := List.filter (fun c => keep (fst c)) (masked (mk col) (data d)) |} /\
    (forall k, special k = true -> keep k = true) /\
    (r = Ok tt -> forall c, In c (masked (mk col) (data d)) -> special (fst c) = false ->
                 keep (fst c) = true -> low_total 0 c = false) /\
    ((forall c, In c (masked (mk col) (data d)) -> special (fst c) = false ->
                exists s, sum (snd c) = Ok s) -> r = Ok tt).
Proof.
  intros Hd Hfind Hnd.
  set (d1 := getitem_mask (mk col) d).
  set (w1 := {| frames := frames w ++ [d1]; files := files w; resplit := resplit w |}).
  set (self' := {| _sep := _sep self; df := length (frames w) |}).
  assert (Hd1 : frames w1 !! df self' = Some d1) by apply lookup_new.
  assert (Hnd1 : List.NoDup (columns d1)).
  { unfold columns, d1, getitem_mask. cbn [data]. fold (masked (mk col) (data d)).
    now rewrite masked_labels. }
  destruct (cleanup_outcome self' 0 w1 d1 Hd1 Hnd1)
    as (keep & r & w' & Hclean & Hr & Hlook & Hsp & Hlow & Hok).
  exists keep, r, self', w'. split.
  { unfold select_rows, mbind, load, lift, new. rewrite Hd.
    unfold getitem. rewrite Hfind. cbn [snd].
    fold d1. fold w1. fold self'. now rewrite Hclean. }
  repeat (split; [assumption|]). exact Hok.
Qed.



End Filters.





(** ** Pruning of empty feature columns *)

Lemma sum_nonneg (l : list cell) :
  (forall x, In x l -> exists q, x = CNum q /\ (0 <= q)%Q) ->
  exists t, Pandas.sum l = Ok t /\ (0 <= t)%Q /\
            (Qle_bool t 0 = false -> exists q, In (CNum q) l /\ ~ (q == 0)%Q).
Proof.
  induction l as [|x l IH]; intros H.
  - exists 0%Q. split; [reflexivity|]. split; [lra|]. intros Hf. discriminate Hf.
  - destruct (H x (or_introl eq_refl)) as (q & -> & Hq).
    destruct IH as (t & Ht & Hpos & Hnz); [intros y Hy; apply H; now right|].
    exists (q + t)%Q. simpl. rewrite Ht. split; [reflexivity|]. split; [lra|].
    intros Hle. destruct (Qeq_dec q 0) as [Hq0|Hq0].
    + destruct Hnz as (q' & Hin & Hq').
      * apply Bool.not_true_is_false. intros Hc. apply Qle_bool_iff in Hc.
        apply Bool.not_true_iff_false in Hle. apply Hle. apply Qle_bool_iff. lra.
      * exists q'. split; [now right | exact Hq'].
    + exists q. split; [now left | exact Hq0].
Qed.

Lemma pruned_after_select (mk : list cell -> list bool) (self : object) (w : world)
    (d : DataFrame) :
  frames w !! df self = Some d ->
  List.NoDup (columns d) ->
  Pandas.has_column GenomicFeatures._col_tissue d = true ->
  nonneg_features d ->
  pruned d (select_rows mk self w).
Proof.
  intros Hd Hnd Hcol Hnn.
  destruct (getitem_present _ _ Hcol) as (col & _ & Hfind).
  destruct (select_rows_outcome mk self w d col Hd Hfind Hnd)
    as (keep & r & self' & w' & Hsel & _ & Hlook & Hsp & Hlow & Hok).
  assert (Hcells : forall c, In c (masked (mk col) (data d)) -> special (fst c) = false ->
             forall x, In x (snd c) -> exists q, x = CNum q /\ (0 <= q)%Q).
  { intros c Hc Hspc x Hx. apply masked_In in Hc as (col0 & Hin & Heq).
    apply (Hnn (fst c, col0) x Hin Hspc). simpl. rewrite Heq in Hx.
    eapply compress_In. exact Hx. }
  assert (Hr : r = Ok tt).
  { apply Hok. intros c Hc Hspc.
    destruct (sum_nonneg (snd c) (Hcells c Hc Hspc)) as (t & Ht & _). eauto. }
  subst r. eexists self', w', _. split; [exact Hsel|]. split; [exact Hlook|].
  cbn [data]. split.
  - intros c Hc Hspc. apply List.filter_In in Hc as [Hc Hkeep].
    destruct (sum_nonneg (snd c) (Hcells c Hc Hspc)) as (t & Ht & _ & Hnz).
    apply Hnz. pose proof (Hlow eq_refl c Hc Hspc Hkeep) as Hl.
    unfold low_total in Hl. now rewrite Ht in Hl.
  - intros k Hk Hin. unfold columns. cbn [data].
    rewrite filter_map_fst. apply List.filter_In. split; [|now apply Hsp].
    now rewrite masked_labels.
Qed.

(** C7.  On a frame whose feature columns hold nonnegative numbers, both
    tissue filters return, every column they leave other than the three
    informative ones has a nonzero entry, and the three informative columns
    are kept whatever they hold. *)
Theorem zero_columns_pruned (self : object) (ts : str_or_list) (w : world)
    (d : DataFrame) :
  frames w !! df self = Some d ->
  List.NoDup (columns d) ->
  Pandas.has_column GenomicFeatures._col_tissue d = true ->
  nonneg_features d ->
  pruned d (GenomicFeatures.drop_tissue_in self ts w) /\
  pruned d (GenomicFeatures.keep_tissue_in self ts w).
Proof.
  intros Hd Hnd Hcol Hnn. split.
  - rewrite drop_tissue_in_select. now apply pruned_after_select.
  - rewrite keep_tissue_in_select. now apply pruned_after_select.
Qed.

Lemma sample_nonneg_features : nonneg_features Sample.features_frame.
Proof.
  intros c x Hc Hsp Hx. simpl in Hc.
  repeat (destruct Hc as [<-|Hc]; [try discriminate Hsp|]); try contradiction.
  - simpl in Hx. repeat (destruct Hx as [<-|Hx]; [eexists; split; [reflexivity|]; lra|]).
    contradiction.
  - simpl in Hx. repeat (destruct Hx as [<-|Hx]; [eexists; split; [reflexivity|]; lra|]).
    contradiction.
Defined.

Lemma zero_columns_pruned_witness :
  pruned Sample.features_frame
    (GenomicFeatures.drop_tissue_in Sample.gf (OneStr "lung") Sample.w_gf) /\
  pruned Sample.features_frame
    (GenomicFeatures.keep_tissue_in Sample.gf (OneStr "lung") Sample.w_gf).
Proof.
  apply (zero_columns_pruned Sample.gf (OneStr "lung") Sample.w_gf Sample.features_frame).
  - reflexivity.
  - distinct_labels.
  - reflexivity.
  - exact sample_nonneg_features.
Defined.

(** ** The columns [GenomicFeatures] requires *)

Lemma check_columns_outcome (l0 : loc) (w : world) (d0 : DataFrame) :
  frames w !! l0 = Some d0 ->
  List.NoDup (columns d0) ->
  let sel := {| index_name := index_name d0; index := index d0;
                data := List.filter (fun c => not_drug (fst c)) (data d0) |} in
  let w' := {| frames := frames w ++ [sel]; files := files w; resplit := resplit w |} in
  columns sel = kept_columns (columns d0) /\
  check_columns l0 w
  = if required_present (columns d0)
    then (Ok {| _sep := Reader.default_sep; df := length (frames w) |}, w')
    else (Raise AssertionError, w').
Proof.
  intros Hd0 Hnd sel w'.
  assert (Hcols : columns sel = kept_columns (columns d0)).
  { unfold columns, sel, kept_columns. cbn [data]. apply filter_map_fst. }
  split; [exact Hcols|].
  assert (Hsel : Pandas.getitem_list (List.filter not_drug (columns d0)) d0 = Ok sel).
  { unfold Pandas.getitem_list. rewrite forallb_has_column_filter.
    pose proof (select_filtered_labels not_drug [] (data d0) Hnd) as Hflat.
    simpl in Hflat. unfold columns. now rewrite Hflat. }
  unfold check_columns, mbind, load, lift, new, ret, raise.
  rewrite Hd0, Hsel. fold w'.
  replace (forallb (fun name => Pandas.has_column name sel) required)
    with (required_present (columns d0)).
  - now destruct (required_present (columns d0)).
  - unfold required_present, Pandas.has_column. now rewrite Hcols.
Qed.





(** The outcome of [GenomicFeatures.__init__] on a file with a [COSMIC ID]
    column, up to the check of the compulsory columns. *)
Lemma GenomicFeatures_init_file (w : world) (filename sep : string) (raw : DataFrame)
    (w1 : world) (cosmic : list cell) :
  PandasIO.read_csv filename Reader.default_sep w = (Ok raw, w1) ->
  Pandas.has_column "COSMIC ID" raw = true ->
  Pandas.getitem "COSMIC ID" raw = Ok cosmic ->
  GenomicFeatures.__init__ (VStr filename) sep w
  = check_columns (length (frames w))
      {| frames := <[length (frames w) :=
                       {| index_name := Some "COSMIC ID"; index := cosmic;
                          data := List.filter
                                    (fun c => negb (Pandas.label_eqb "COSMIC ID" c))
                                    (data raw) |}]> (frames w ++ [raw]);
         files := files w; resplit := resplit w |}.
Proof.
  intros Hread Hcos Hget.
  pose proof (read_csv_pure _ _ _ _ _ Hread) as ->.
  unfold GenomicFeatures.__init__. unfold mbind at 1 2. rewrite Hread.
  unfold new at 1. unfold mbind at 1. rewrite Hcos.
  unfold mbind at 1 2, lift at 1, Pandas.set_index. rewrite Hget.
  reflexivity.
Qed.




(** The separator given to the constructor is of no use: a file separated
    by commas is read with a tabulation, and refused for want of a
    [COSMIC ID] column, although it has all the columns when it is read
    with a comma. *)
Lemma comma_file_is_read_with_tab :
  PandasIO.read_csv "features.csv" "," Sample.w_comma
  = (Ok {| index_name := None; index := PandasIO.RangeIndex 1;
           data := Sample.comma_table |}, Sample.w_comma) /\
  required_present (map fst Sample.comma_table) = true /\
  fst (GenomicFeatures.__init__ (VStr "features.csv") "," Sample.w_comma)
  = Raise AssertionError.
Proof. repeat split. Qed.

(** A dataframe with a column labelled [df] is not taken as a dataframe:
    [filename.df] is that column, and the constructor fails on it before any
    assertion is reached. *)
Lemma dataframe_with_df_column :
  fst (GenomicFeatures.__init__ (VDataFrame 0) tab
         {| frames := [{| index_name := Some "COSMIC ID";
                          index := [CNum 905];
                          data := [("Tissue Factor Value", [CStr "lung"]);
                                   ("Sample Name", [CStr "A549"]);
                                   ("MS-instability Factor Value", [CNum 0]);
                                   ("df", [CNum 1])] |}];
            files := ∅; resplit := fun f _ => file_table f |})
  = Raise AttributeError.
Proof. reflexivity. Qed.

(** ** Writing a frame and reading it back *)

Section ReadBack.
Import PandasIO.

Lemma fill_unnamed_id (i : nat) (names : list string) :
  ~ In "" names -> fill_unnamed i names = names.
Proof.
  revert i. induction names as [|n names IH]; intros i H; simpl; [reflexivity|].
  destruct (String.eqb_spec n "") as [->|_].
  - exfalso. apply H. now left.
  - f_equal. apply IH. intros Hin. apply H. now right.
Qed.

Lemma mangle_dupe_cols_id (seen names : list string) :
  List.NoDup names ->
  (forall n, In n names -> ~ In n seen) ->
  mangle_dupe_cols seen names = names.
Proof.
  revert seen. induction names as [|n names IH]; intros seen Hnd Hsep; simpl;
    [reflexivity|].
  inversion Hnd as [|? ? Hnotin Hnd']; subst.
  assert (Hnone : List.filter (String.eqb n) seen = []).
  { specialize (Hsep n (or_introl eq_refl)).
    induction seen as [|s seen IHs]; simpl; [reflexivity|].
    destruct (String.eqb_spec n s) as [->|_].
    - exfalso. apply Hsep. now left.
    - apply IHs. intros Hin. apply Hsep. now right. }
  rewrite Hnone. simpl. f_equal. apply IH; [exact Hnd'|].
  intros m Hm [<-|Hin]; [contradiction|].
  apply (Hsep m); [now right | exact Hin].
Qed.

Lemma parse_header_id (names : list string) :
  List.NoDup names -> ~ In "" names -> parse_header names = names.
Proof.
  intros Hnd Hne. unfold parse_header. rewrite fill_unnamed_id by exact Hne.
  apply mangle_dupe_cols_id; [exact Hnd | intros n _ []].
Qed.

Lemma combine_fst_snd {A B} (t : list (A * B)) : combine (map fst t) (map snd t) = t.
Proof.
  induction t as [|[a b] t IH]; simpl; [reflexivity | now rewrite IH].
Qed.

(** A column of numbers and missing values is read back as it was
    written, when the text of each number reads as that number. *)
Lemma numbers_survive (tl : text_layer) (col : list cell) :
  Forall (number_cell tl) col -> read_back tl col = col.
Proof.
  intros Hcol. rewrite Forall_forall in Hcol. unfold read_back, infer_column.
  assert (Hall : forallb (reads_as_number tl)
                   (List.filter (fun t => negb (is_na t)) (map (to_text tl) col)) = true).
  { apply forallb_forall. intros t Ht. apply List.filter_In in Ht as [Ht Hna].
    apply List.in_map_iff in Ht as (c & <- & Hc).
    apply list_elem_of_In, Hcol in Hc.
    destruct c as [|q|s]; [discriminate Hna | | contradiction].
    unfold reads_as_number. cbn [to_text]. destruct Hc as [_ Hq]. now rewrite Hq. }
  rewrite Hall. rewrite List.map_map.
  rewrite <- (List.map_id col) at 2. apply List.map_ext_in.
  intros c Hc. apply list_elem_of_In, Hcol in Hc.
  destruct c as [|q|s]; [reflexivity | | contradiction].
  cbn [to_text]. destruct Hc as [Hna Hq]. now rewrite Hna, Hq.
Qed.

(** A column of strings and missing values is read back as it was written,
    when no string stands for a missing value, one of them does not read
    as a number, and one of them is not a boolean. *)
Lemma strings_survive (tl : text_layer) (col : list cell) (s1 s2 : string) :
  Forall string_cell col ->
  In (CStr s1) col -> text_number tl s1 = None ->
  In (CStr s2) col -> is_bool s2 = false ->
  read_back tl col = col.
Proof.
  intros Hcol Hin1 Hs1 Hin2 Hs2. rewrite Forall_forall in Hcol.
  unfold read_back, infer_column.
  assert (Hpresent : forall s, In (CStr s) col ->
            In s (List.filter (fun t => negb (is_na t)) (map (to_text tl) col))).
  { intros s Hs. apply List.filter_In. split.
    - apply List.in_map_iff. now exists (CStr s).
    - apply list_elem_of_In, Hcol in Hs. cbn [string_cell] in Hs. now rewrite Hs. }
  destruct (forallb (reads_as_number tl) _) eqn:Hnum.
  { rewrite forallb_forall in Hnum. specialize (Hnum s1 (Hpresent s1 Hin1)).
    unfold reads_as_number in Hnum. rewrite Hs1 in Hnum. discriminate Hnum. }
  destruct (forallb is_bool _) eqn:Hbool.
  { rewrite forallb_forall in Hbool. specialize (Hbool s2 (Hpresent s2 Hin2)).
    rewrite Hs2 in Hbool. discriminate Hbool. }
  rewrite List.map_map.
  rewrite <- (List.map_id col) at 2. apply List.map_ext_in.
  intros c Hc. apply list_elem_of_In, Hcol in Hc.
  destruct c as [|q|s]; [reflexivity | contradiction |].
  cbn [to_text]. cbn [string_cell] in Hc. now rewrite Hc.
Qed.

Lemma plain_read_back (tl : text_layer) (col : list cell) :
  plain_column tl col -> read_back tl col = col.
Proof.
  intros [Hnum|(Hstr & (s1 & Hin1 & Hs1) & (s2 & Hin2 & Hs2))].
  - now apply numbers_survive.
  - now apply (strings_survive tl col s1 s2).
Qed.

Lemma read_back_table (tl : text_layer) (t : table) :
  Forall (fun c => plain_column tl (snd c)) t ->
  map (fun c => (fst c, read_back tl (snd c))) t = t.
Proof.
  induction 1 as [|[k col] t Hc _ IH]; [reflexivity|].
  cbn [map fst snd] in *. now rewrite (plain_read_back _ _ Hc), IH.
Qed.

Lemma separates_length (sep : string) : separates sep = true -> String.length sep = 1.
Proof.
  unfold separates. intros H. apply Bool.andb_true_iff in H as [H _].
  now apply Nat.eqb_eq in H.
Qed.

Lemma to_csv_written (tl : text_layer) (d : DataFrame) (filename sep : string)
    (w : world) :
  separates sep = true ->
  text_safe tl d ->
  to_csv tl d filename sep w = (Ok tt, written d filename sep w).
Proof.
  intros Hsep [Hidx Hdata]. unfold to_csv, written.
  rewrite (separates_length _ Hsep), Hsep. cbn [Nat.eqb].
  rewrite read_back_table; [reflexivity|]. now constructor.
Qed.

(** A separator that is not one character long is refused, and the file is
    left empty. *)
Lemma to_csv_refused (tl : text_layer) (d : DataFrame) (filename sep : string)
    (w : world) :
  String.length sep <> 1 ->
  to_csv tl d filename sep w
  = (Raise TypeError,
     {| frames := frames w;
        files := <[filename := {| file_sep := sep; file_table := [] |}]> (files w);
        resplit := resplit w |}).
Proof.
  intros Hlen. unfold to_csv. apply Nat.eqb_neq in Hlen. now rewrite Hlen.
Qed.

(** What is read from a file just written, with the same separator: the
    frame written, its index turned into the first column. *)
Lemma read_after_write (d : DataFrame) (label filename sep : string) (w : world) :
  index_name d = Some label ->
  List.NoDup (label :: columns d) ->
  ~ In "" (label :: columns d) ->
  read_csv filename sep (written d filename sep w)
  = (Ok {| index_name := None;
           index := RangeIndex (length (index d));
           data := (label, index d) :: data d |}, written d filename sep w).
Proof.
  intros Hname Hnd Hne.
  unfold read_csv, written. cbn [files]. rewrite Hname. cbn [default].
  rewrite lookup_insert_eq. cbn [file_sep file_table].
  rewrite String.eqb_refl. cbn [map fst snd table_rows].
  unfold id. fold (columns d).
  rewrite (parse_header_id (label :: columns d) Hnd Hne).
  unfold columns. cbn [combine]. now rewrite combine_fst_snd.
Qed.

End ReadBack.

Lemma filter_all {A} (P : A -> bool) (l : list A) :
  (forall x, In x l -> P x = true) -> List.filter P l = l.
Proof.
  induction l as [|x l IH]; intros H; simpl; [reflexivity|].
  rewrite (H x (or_introl eq_refl)). f_equal. apply IH. intros y Hy. apply H. now right.
Qed.

(** C1, as the code has it.  Writing and reading back gives the same frame
    (index name, index, columns and cells) when the separator of the object
    is one character, neither a quote nor a line end, every column of the frame, its index included, holds
    numbers and missing values, or strings and missing values that the
    parser leaves as they are, and the frame is one the
    constructor can produce from a file: for an [IC50], indexed by
    [COSMIC ID] with unique labels that all start with [Drug]; for a
    [GenomicFeatures], indexed by [COSMIC ID] with unique, non-empty labels
    other than [COSMIC ID], none starting with [Drug_], the three compulsory
    ones among them.  The frame of the first object is left as it was. *)
Theorem to_csv_roundtrip (tl : text_layer) (w : world) (filename : string)
    (d : DataFrame) :
  index_name d = Some "COSMIC ID" ->
  List.NoDup (columns d) ->
  text_safe tl d ->
  (forall r,
      frames w !! df r = Some d ->
      PandasIO.separates (_sep r) = true ->
      (forall x, In x (columns d) -> String.prefix "Drug" x = true) ->
      exists r2 w2,
        IC50_roundtrip tl r filename w = (Ok r2, w2) /\
        frames w2 !! df r2 = Some d /\
        frames w2 !! df r = Some d) /\
  (forall g,
      frames w !! df g = Some d ->
      _sep g = Reader.default_sep ->
      ~ In "COSMIC ID" (columns d) ->
      ~ In "" (columns d) ->
      (forall x, In x (columns d) -> not_drug x = true) ->
      required_present (columns d) = true ->
      exists g2 w2,
        GenomicFeatures_roundtrip tl g filename w = (Ok g2, w2) /\
        frames w2 !! df g2 = Some d /\
        frames w2 !! df g = Some d).
Proof.
  intros Hname Hnd Hsafe.
  assert (Hfind : List.find (Pandas.label_eqb "COSMIC ID") (("COSMIC ID", index d) :: data d)
                  = Some ("COSMIC ID", index d)) by reflexivity.
  assert (Heta : forall t, t = data d ->
             {| index_name := Some "COSMIC ID"; index := index d; data := t |} = d).
  { intros t ->. destruct d. simpl in *. now subst. }
  assert (Hback : forall sep,
             ~ In "COSMIC ID" (columns d) -> ~ In "" (columns d) ->
             PandasIO.read_csv filename sep (written d filename sep w)
             = (Ok {| index_name := None;
                      index := PandasIO.RangeIndex (length (index d));
                      data := ("COSMIC ID", index d) :: data d |},
                written d filename sep w)).
  { intros sep Hcos Hempty. apply read_after_write; [exact Hname | now constructor |].
    intros [Hc|Hc]; [discriminate | contradiction]. }
  split.
  - intros r Hd Hlen Hdrug.
    assert (Hlt : df r < length (frames w)) by (eapply lookup_lt_Some; eassumption).
    assert (Hcos : ~ In "COSMIC ID" (columns d))
      by (intros Hin; specialize (Hdrug _ Hin); discriminate).
    assert (Hempty : ~ In "" (columns d))
      by (intros Hin; specialize (Hdrug _ Hin); discriminate).
    assert (Hndraw : List.NoDup
                       (List.filter (String.prefix "Drug") ("COSMIC ID" :: columns d)))
      by (apply List.NoDup_filter; now constructor).
    destruct (IC50_init_file _ _ _ _ _ (index d) (Hback (_sep r) Hcos Hempty) Hndraw Hfind)
      as (r2 & w2 & Hinit & Hlook & Hold).
    exists r2, w2. split.
    { unfold IC50_roundtrip, Reader.to_csv, mbind, load. rewrite Hd.
      rewrite (to_csv_written tl _ _ _ _ Hlen Hsafe). exact Hinit. }
    split.
    + rewrite Hlook. f_equal. apply Heta. cbn [data List.filter fst].
      change (String.prefix "Drug" "COSMIC ID") with false. cbv iota.
      apply filter_all. intros c Hc. apply Hdrug. unfold columns. now apply List.in_map.
    + rewrite Hold by exact Hlt. exact Hd.
  - intros g Hd Hsep Hcos Hempty Hdrug Hreq.
    assert (Hlt : df g < length (frames w)) by (eapply lookup_lt_Some; eassumption).
    set (w1 := written d filename Reader.default_sep w).
    set (raw := {| index_name := None;
                   index := PandasIO.RangeIndex (length (index d));
                   data := ("COSMIC ID", index d) :: data d |}).
    pose proof (GenomicFeatures_init_file w1 filename (_sep g) raw w1 (index d)
                  (Hback Reader.default_sep Hcos Hempty) eq_refl eq_refl) as Hinit.
    assert (Hrest : List.filter (fun c => negb (Pandas.label_eqb "COSMIC ID" c)) (data raw)
                    = data d).
    { unfold raw. cbn [data List.filter].
      change (negb (Pandas.label_eqb "COSMIC ID" ("COSMIC ID", index d))) with false.
      cbv iota. apply filter_all. intros c Hc. apply Bool.negb_true_iff.
      unfold Pandas.label_eqb. apply String.eqb_neq. intros Heq. apply Hcos.
      rewrite Heq. unfold columns. now apply List.in_map. }
    rewrite Hrest in Hinit. rewrite (Heta _ eq_refl) in Hinit.
    assert (Hd1 : (<[length (frames w1) := d]> (frames w1 ++ [raw])) !! length (frames w1)
                  = Some d) by apply lookup_store_new.
    destruct (check_columns_outcome (length (frames w1))
                {| frames := <[length (frames w1) := d]> (frames w1 ++ [raw]);
                   files := files w1; resplit := resplit w1 |} d Hd1 Hnd)
      as [_ Hout].
    rewrite Hreq in Hout. rewrite Hout in Hinit.
    eexists _, _. split.
    { unfold GenomicFeatures_roundtrip, Reader.to_csv, mbind, load. rewrite Hd.
      rewrite Hsep.
      rewrite (to_csv_written tl _ _ _ _ (eq_refl : PandasIO.separates Reader.default_sep = true)
                 Hsafe).
      rewrite Hsep in Hinit. exact Hinit. }
    cbn [frames df]. split.
    + rewrite lookup_new. f_equal. rewrite Hname. apply Heta.
      apply filter_all. intros c Hc. apply Hdrug. unfold columns. now apply List.in_map.
    + assert (Hlen : length (<[length (frames w1) := d]> (frames w1 ++ [raw]))
                     = S (length (frames w))).
      { rewrite length_insert, length_app. unfold w1. simpl. lia. }
      rewrite lookup_app_l by (rewrite Hlen; lia).
      rewrite list_lookup_insert_ne by (unfold w1; simpl; lia).
      rewrite lookup_app_l by (unfold w1; simpl; lia). exact Hd.
Qed.

Lemma Sample_features_text_safe : text_safe Sample.text Sample.features_frame.
Proof.
  assert (Hstr : forall s1 s2 s3,
             PandasIO.is_na s1 = false -> PandasIO.is_na s2 = false ->
             PandasIO.is_na s3 = false ->
             text_number Sample.text s1 = None -> PandasIO.is_bool s1 = false ->
             plain_column Sample.text [CStr s1; CStr s2; CStr s3]).
  { intros s1 s2 s3 H1 H2 H3 Hn Hb. right. split; [now repeat constructor|].
    split; exists s1; (split; [now left | assumption]). }
  split; [left; repeat constructor|].
  constructor; [now apply Hstr|]. constructor; [now apply Hstr|].
  repeat constructor; left; repeat constructor.
Defined.

Lemma to_csv_roundtrip_witness :
  (exists r2 w2,
      IC50_roundtrip Sample.text {| _sep := ","; df := 0 |} "out.csv" Sample.w_ic50
      = (Ok r2, w2) /\
      frames w2 !! df r2 = Some Sample.ic50_frame) /\
  (exists g2 w2,
      GenomicFeatures_roundtrip Sample.text Sample.gf "out.tsv" Sample.w_gf = (Ok g2, w2) /\
      frames w2 !! df g2 = Some Sample.features_frame).
Proof.
  split.
  - destruct (to_csv_roundtrip Sample.text Sample.w_ic50 "out.csv" Sample.ic50_frame)
      as [Hic _].
    + reflexivity.
    + distinct_labels.
    + split; [left | repeat constructor; left]; repeat constructor.
    + destruct (Hic {| _sep := ","; df := 0 |}) as (r2 & w2 & Hrt & Hlook & _).
      * reflexivity.
      * reflexivity.
      * unfold columns. simpl. intros x Hx.
        repeat (destruct Hx as [<-|Hx]; [reflexivity|]). contradiction.
      * exists r2, w2. split; assumption.
  - destruct (to_csv_roundtrip Sample.text Sample.w_gf "out.tsv" Sample.features_frame)
      as [_ Hgf].
    + reflexivity.
    + distinct_labels.
    + apply Sample_features_text_safe.
    + destruct (Hgf Sample.gf) as (g2 & w2 & Hrt & Hlook & _).
      * reflexivity.
      * reflexivity.
      * unfold columns. simpl. intuition discriminate.
      * unfold columns. simpl. intuition discriminate.
      * unfold columns. simpl. intros x Hx.
        repeat (destruct Hx as [<-|Hx]; [reflexivity|]). contradiction.
      * reflexivity.
      * exists g2, w2. split; assumption.
Defined.

(** C1 as stated fails: an [IC50] takes any dataframe as it is, and reading
    back keeps only the columns starting with [Drug].  The [IC50] built from
    the frame of genomic features writes five columns and reads none back. *)
Lemma IC50_roundtrip_drops_columns :
  exists r w1 r2 w2 d2,
    IC50.__init__ (VDataFrame 0) tab Sample.w_gf = (Ok r, w1) /\
    frames w1 !! df r = Some Sample.features_frame /\
    IC50_roundtrip Sample.text r "out.tsv" w1 = (Ok r2, w2) /\
    frames w2 !! df r2 = Some d2 /\
    columns d2 = [] /\
    columns Sample.features_frame <> columns d2.
Proof.
  eexists _, _, _, _, _.
  split; [reflexivity|]. split; [reflexivity|].
  split; [vm_compute; reflexivity|]. split; [reflexivity|].
  split; [reflexivity|]. discriminate.
Qed.

(** It also fails on the text: an identifier written as [007] is read back
    as the number 7, and one written as [NA] as a missing value. *)
Lemma IC50_roundtrip_retypes_cells :
  exists r2 w2 d2,
    frames Sample.w_coded !! 0 = Some Sample.coded_frame /\
    IC50_roundtrip Sample.text {| _sep := tab; df := 0 |} "out.tsv" Sample.w_coded
    = (Ok r2, w2) /\
    frames w2 !! df r2 = Some d2 /\
    index Sample.coded_frame = [CStr "007"; CStr "NA"] /\
    index d2 = [CNum 7; CNaN] /\
    data d2 = data Sample.coded_frame.
Proof.
  eexists _, _, _.
  split; [reflexivity|]. split; [vm_compute; reflexivity|].
  repeat split.
Qed.

(** And on the separator: with a separator of two characters nothing is
    written, and no object is read back. *)
Lemma IC50_roundtrip_long_separator :
  frames Sample.w_ic50 !! 0 = Some Sample.ic50_frame /\
  fst (IC50_roundtrip Sample.text {| _sep := "::"; df := 0 |} "out.csv" Sample.w_ic50)
  = Raise TypeError.
Proof. split; reflexivity. Qed.

(** * Further properties *)

(** ** Identifiers of the cell lines *)

Lemma getitem_find k d col :
  Pandas.getitem k d = Ok col ->
  List.find (Pandas.label_eqb k) (data d) = Some (k, col).
Proof.
  unfold Pandas.getitem. destruct (List.find _ _) as [[k' col']|] eqn:E; [|discriminate].
  intros [= <-]. apply List.find_some in E as [_ E].
  unfold Pandas.label_eqb in E. apply String.eqb_eq in E. simpl in E. now subst.
Qed.

(** The index of an [IC50] read from a file, whatever the other labels
    are. *)
Lemma IC50_init_index (w : world) (filename sep : string) (raw : DataFrame) (w1 : world)
    (cosmic : list cell) :
  PandasIO.read_csv filename sep w = (Ok raw, w1) ->
  Pandas.getitem "COSMIC ID" raw = Ok cosmic ->
  exists self w' d,
    IC50.__init__ (VStr filename) sep w = (Ok self, w') /\
    frames w' !! df self = Some d /\
    index_name d = Some "COSMIC ID" /\
    index d = cosmic.
Proof.
  intros Hread Hget. apply getitem_find in Hget.
  pose proof (read_csv_pure _ _ _ _ _ Hread) as ->.
  assert (Hcos : Pandas.has_column "COSMIC ID" raw = true).
  { apply has_column_In. apply List.find_some in Hget as [Hin _].
    unfold columns. now apply (List.in_map fst) in Hin. }
  set (rest := flat_map (fun k => List.filter (Pandas.label_eqb k) (data raw))
                        (List.filter (String.prefix "Drug") (columns raw))).
  assert (Hsel : Pandas.getitem_list
                   ("COSMIC ID" :: List.filter (String.prefix "Drug") (columns raw)) raw
                 = Ok {| index_name := index_name raw; index := index raw;
                         data := ("COSMIC ID", cosmic) :: rest |}).
  { unfold Pandas.getitem_list. cbn [forallb flat_map]. rewrite Hcos.
    rewrite forallb_has_column_filter. cbn [andb].
    now rewrite (filter_label_once _ _ _ (read_csv_cosmic_once _ _ _ _ _ Hread) Hget). }
  eexists _, _, _. split.
  { unfold IC50.__init__. unfold mbind at 1. rewrite Hread.
    unfold mbind, lift, new, store, ret. rewrite Hsel.
    unfold Pandas.set_index, Pandas.getitem. cbn [data List.find bind].
    change (Pandas.label_eqb "COSMIC ID" ("COSMIC ID", cosmic)) with true.
    cbv iota. cbn [bind snd]. reflexivity. }
  cbn [frames df]. split; [apply lookup_store_new|]. split; reflexivity.
Qed.

(** [cosmicIds] of an [IC50] read from a file lists the cells of the
    [COSMIC ID] column of the file, in the order of the file, repeated
    identifiers included. *)
Theorem cosmicIds_from_file (w : world) (filename sep : string) (raw : DataFrame)
    (w1 : world) (cosmic : list cell) :
  PandasIO.read_csv filename sep w = (Ok raw, w1) ->
  Pandas.getitem "COSMIC ID" raw = Ok cosmic ->
  exists self w',
    IC50.__init__ (VStr filename) sep w = (Ok self, w') /\
    CosmicRows.cosmicIds self w' = (Ok cosmic, w').
Proof.
  intros Hread Hget.
  destruct (IC50_init_index _ _ _ _ _ _ Hread Hget)
    as (self & w' & d & Hinit & Hlook & _ & Hidx).
  exists self, w'. split; [exact Hinit|].
  unfold CosmicRows.cosmicIds, mbind, load, ret. now rewrite Hlook, Hidx.
Qed.

Lemma cosmicIds_from_file_witness :
  (exists self w',
      IC50.__init__ (VStr "features.tsv") tab Sample.w0 = (Ok self, w') /\
      CosmicRows.cosmicIds self w' = (Ok [CNum 905; CNum 906; CNum 907], w')) /\
  (exists self w',
      IC50.__init__ (VStr "repeated.tsv") tab Sample.w_repeated = (Ok self, w') /\
      CosmicRows.cosmicIds self w' = (Ok [CNum 905; CNum 906], w')).
Proof.
  split.
  - apply (cosmicIds_from_file Sample.w0 "features.tsv" tab
             {| index_name := None; index := PandasIO.RangeIndex 3;
                data := Sample.features_table |} Sample.w0); reflexivity.
  - apply (cosmicIds_from_file Sample.w_repeated "repeated.tsv" tab
             {| index_name := None; index := PandasIO.RangeIndex 2;
                data := combine (PandasIO.parse_header (map fst Sample.repeated_table))
                                (map snd Sample.repeated_table) |}
             Sample.w_repeated); reflexivity.
Defined.

(** ** What a [GenomicFeatures] holds once built *)

Lemma init_bind_check (v : value) (sep : string) (w : world) :
  GenomicFeatures.__init__ v sep w = mbind (bind_frame v) check_columns w.
Proof. destruct v; reflexivity. Qed.

Lemma getitem_list_labels (keys : list string) (d sel : DataFrame) :
  Pandas.getitem_list keys d = Ok sel ->
  forall x, In x (columns sel) -> In x keys.
Proof.
  unfold Pandas.getitem_list. destruct (forallb _ keys); [|discriminate].
  intros [= <-] x Hx. unfold columns in Hx. cbn [data] in Hx.
  apply List.in_map_iff in Hx as (c & <- & Hc).
  apply List.in_flat_map in Hc as (k & Hk & Hc).
  apply List.filter_In in Hc as [_ Hc]. unfold Pandas.label_eqb in Hc.
  apply String.eqb_eq in Hc. now subst.
Qed.

Lemma check_columns_inv (l0 : loc) (w1 : world) (g : object) (w' : world) :
  check_columns l0 w1 = (Ok g, w') ->
  _sep g = Reader.default_sep /\
  exists d,
    frames w' !! df g = Some d /\
    (forall name, In name required -> In name (columns d)) /\
    (forall x, In x (columns d) -> String.prefix "Drug_" x = false).
Proof.
  unfold check_columns, mbind, load, lift, new, ret, raise.
  destruct (frames w1 !! l0) as [d0|]; [|discriminate].
  destruct (Pandas.getitem_list _ d0) as [sel|] eqn:Esel; [|discriminate].
  destruct (forallb _ required) eqn:Ereq; [|discriminate].
  intros [= <- <-]. split; [reflexivity|]. exists sel. cbn [frames df].
  split; [apply lookup_new|]. split.
  - intros name Hin. rewrite forallb_forall in Ereq. apply has_column_In. now apply Ereq.
  - intros x Hx. apply (getitem_list_labels _ _ _ Esel) in Hx.
    apply List.filter_In in Hx as [_ Hx]. unfold not_drug in Hx.
    now apply Bool.negb_true_iff.
Qed.

Lemma mbind_Ok {A B} (m : M A) (k : A -> M B) (w w' : world) (b : B) :
  mbind m k w = (Ok b, w') ->
  exists a w1, m w = (Ok a, w1) /\ k a w1 = (Ok b, w').
Proof.
  unfold mbind. destruct (m w) as [[a|e] w1]; [eauto | discriminate].
Qed.

(** Whatever it is built from, a [GenomicFeatures] that was built writes
    with the tabulation, its frame has the three compulsory columns and no
    column starting with [Drug_], and the [sep] handed to the constructor
    played no part. *)
Theorem GenomicFeatures_invariant (v : value) (sep : string) (w : world)
    (g : object) (w' : world) :
  GenomicFeatures.__init__ v sep w = (Ok g, w') ->
  _sep g = Reader.default_sep /\
  (exists d,
      frames w' !! df g = Some d /\
      (forall name, In name required -> In name (columns d)) /\
      (forall x, In x (columns d) -> String.prefix "Drug_" x = false)) /\
  forall sep', GenomicFeatures.__init__ v sep' w = (Ok g, w').
Proof.
  intros Hinit. pose proof Hinit as Hcopy. rewrite init_bind_check in Hinit.
  apply mbind_Ok in Hinit as (l0 & w1 & _ & Hcheck).
  destruct (check_columns_inv _ _ _ _ Hcheck) as [Hsep Hd].
  split; [exact Hsep|]. split; [exact Hd|].
  intros sep'. rewrite init_bind_check. now rewrite <- init_bind_check with (sep := sep).
Qed.

Lemma GenomicFeatures_invariant_witness :
  _sep {| _sep := tab; df := 1 |} = Reader.default_sep /\
  (exists d,
      frames (snd (GenomicFeatures.__init__ (VStr "features.tsv") "," Sample.w0)) !! 1
      = Some d /\
      (forall name, In name required -> In name (columns d)) /\
      (forall x, In x (columns d) -> String.prefix "Drug_" x = false)) /\
  forall sep',
    GenomicFeatures.__init__ (VStr "features.tsv") sep' Sample.w0
    = (Ok {| _sep := tab; df := 1 |},
       snd (GenomicFeatures.__init__ (VStr "features.tsv") "," Sample.w0)).
Proof.
  apply (GenomicFeatures_invariant (VStr "features.tsv") "," Sample.w0
           {| _sep := tab; df := 1 |}
           (snd (GenomicFeatures.__init__ (VStr "features.tsv") "," Sample.w0))).
  vm_compute. reflexivity.
Defined.

(** ** Frames and files that are left alone *)

Lemma insert_last {A} (l : list A) (x y : A) : <[length l := y]> (l ++ [x]) = l ++ [y].
Proof.
  rewrite insert_app_r_alt by lia. now rewrite Nat.sub_diag.
Qed.

Lemma extends_refl (w : world) : extends w w.
Proof. split; [reflexivity|]. exists []. now rewrite List.app_nil_r. Qed.

Lemma extends_frames (w : world) (fresh : list DataFrame) :
  extends w {| frames := frames w ++ fresh; files := files w; resplit := resplit w |}.
Proof. split; [reflexivity|]. now exists fresh. Qed.

Lemma extends_trans (w1 w2 w3 : world) : extends w1 w2 -> extends w2 w3 -> extends w1 w3.
Proof.
  intros [Hf1 [k1 Hk1]] [Hf2 [k2 Hk2]]. split; [congruence|].
  exists (k1 ++ k2). rewrite Hk2, Hk1. now rewrite List.app_assoc.
Qed.

Lemma read_csv_state filename sep w : snd (PandasIO.read_csv filename sep w) = w.
Proof.
  destruct (PandasIO.read_csv filename sep w) as [r w'] eqn:E.
  simpl. exact (read_csv_pure _ _ _ _ _ E).
Qed.

Lemma copy_extends (l0 : loc) (k : loc -> object) (w : world) :
  extends w (snd ((do! d := load l0 in do! l := new d in ret (k l)) w)).
Proof.
  unfold mbind, load, new, ret. destruct (frames w !! l0); simpl.
  - apply extends_frames.
  - apply extends_refl.
Qed.

Lemma IC50_init_extends (v : value) (sep : string) (w : world) :
  extends w (snd (IC50.__init__ v sep w)).
Proof.
  destruct v; try apply extends_refl; try apply copy_extends.
  unfold IC50.__init__. unfold mbind at 1.
  destruct (PandasIO.read_csv s sep w) as [[raw|e] w1] eqn:Eread;
    pose proof (read_csv_pure _ _ _ _ _ Eread) as ->; [|apply extends_refl].
  unfold mbind, new, lift, store, ret.
  destruct (Pandas.getitem_list _ raw) as [sel|]; [|apply extends_frames].
  cbn [frames files resplit].
  destruct (Pandas.set_index _ sel) as [d|]; cbn [snd frames files resplit].
  - rewrite insert_last, <- List.app_assoc. apply extends_frames.
  - rewrite <- List.app_assoc. apply extends_frames.
Qed.

Lemma read_and_index_extends (name : string) (w : world) :
  extends w (snd (bind_frame (VStr name) w)).
Proof.
  unfold bind_frame. unfold mbind at 1.
  destruct (PandasIO.read_csv name _ w) as [[raw|e] w1] eqn:Eread;
    pose proof (read_csv_pure _ _ _ _ _ Eread) as ->; [|apply extends_refl].
  unfold mbind, new, lift, store, ret, raise.
  destruct (Pandas.has_column _ raw); [|apply extends_frames].
  destruct (Pandas.set_index _ raw) as [d|]; cbn [snd frames files resplit].
  - rewrite insert_last. apply extends_frames.
  - apply extends_frames.
Qed.

Lemma bind_frame_extends (v : value) (w : world) : extends w (snd (bind_frame v w)).
Proof.
  destruct v as [| | |l|o|o|[l|]]; try apply extends_refl.
  - apply (read_and_index_extends
             (get_share_file "gdsctools" "data" "genomic_features.tsv")).
  - apply read_and_index_extends.
  - unfold bind_frame, GenomicFeatures.bind_df, mbind, load, raise, ret.
    destruct (frames w !! l) as [d|]; [|apply extends_refl].
    destruct (Pandas.has_column "df" d); apply extends_refl.
  - unfold bind_frame, GenomicFeatures.bind_df, mbind, load, new.
    destruct (frames w !! df o); [apply extends_frames | apply extends_refl].
  - unfold bind_frame, GenomicFeatures.bind_df, mbind, load, new.
    destruct (frames w !! df o); [apply extends_frames | apply extends_refl].
  - unfold bind_frame, GenomicFeatures.bind_df, mbind, load, new.
    destruct (frames w !! l); [apply extends_frames | apply extends_refl].
Qed.

Lemma check_columns_extends (l0 : loc) (w : world) : extends w (snd (check_columns l0 w)).
Proof.
  unfold check_columns, mbind, load, lift, new, ret, raise.
  destruct (frames w !! l0) as [d|]; [|apply extends_refl].
  destruct (Pandas.getitem_list _ d) as [sel|]; [|apply extends_refl].
  destruct (forallb _ required); apply extends_frames.
Qed.

Lemma mbind_extends {A B} (m : M A) (k : A -> M B) (w : world) :
  extends w (snd (m w)) ->
  (forall a w1, extends w1 (snd (k a w1))) ->
  extends w (snd (mbind m k w)).
Proof.
  intros Hm Hk. unfold mbind. destruct (m w) as [[a|e] w1]; simpl in *.
  - eapply extends_trans; [exact Hm | apply Hk].
  - exact Hm.
Qed.

(** [_cleanup] on the frame allocated last only replaces that frame. *)
Lemma cleanup_last (self : object) (required_features : Q) (w : world)
    (fw : list DataFrame) (d1 : DataFrame) :
  frames w = fw ++ [d1] ->
  df self = length fw ->
  exists d', frames (snd (GenomicFeatures._cleanup self required_features w)) = fw ++ [d'] /\
             files (snd (GenomicFeatures._cleanup self required_features w)) = files w.
Proof.
  intros Hfw Hdf.
  unfold GenomicFeatures._cleanup, mbind, load, lift, store.
  rewrite Hdf, Hfw, lookup_new.
  destruct (Pandas.getitem_list _ d1) as [view|]; [|cbn [snd]; rewrite Hfw; eauto].
  destruct (GenomicFeatures.sums (data view)) as [total|]; [|cbn [snd]; rewrite Hfw; eauto].
  destruct (Pandas.drop _ d1) as [d'|]; [|cbn [snd]; rewrite Hfw; eauto].
  exists d'. cbn [snd frames files]. now rewrite Hfw, insert_last.
Qed.

Lemma select_rows_extends (mk : list cell -> list bool) (self : object) (w : world) :
  extends w (snd (select_rows mk self w)).
Proof.
  unfold select_rows, mbind, load, lift, new.
  destruct (frames w !! df self) as [d|]; [|apply extends_refl].
  destruct (Pandas.getitem _ d) as [col|]; [|apply extends_refl].
  set (w1 := {| frames := frames w ++ [Pandas.getitem_mask (mk col) d];
                files := files w; resplit := resplit w |}).
  set (self' := {| _sep := _sep self; df := length (frames w) |}).
  destruct (cleanup_last self' 0 w1 (frames w) _ eq_refl eq_refl) as (d' & Hfr & Hfi).
  destruct (GenomicFeatures._cleanup self' 0 w1) as [r w2]. simpl in *.
  split; [exact Hfi|]. now exists [d'].
Qed.

(** The constructors and the tissue filters never change a file or a
    dataframe that exists: whatever their input and their outcome, the
    state they leave has the same files and the same frames, with new
    frames after them. *)
Theorem existing_frames_are_kept (w : world) :
  (forall v sep, extends w (snd (IC50.__init__ v sep w))) /\
  (forall v sep, extends w (snd (GenomicFeatures.__init__ v sep w))) /\
  (forall self ts, extends w (snd (GenomicFeatures.drop_tissue_in self ts w))) /\
  (forall self ts, extends w (snd (GenomicFeatures.keep_tissue_in self ts w))).
Proof.
  split; [|split; [|split]].
  - intros v sep. apply IC50_init_extends.
  - intros v sep. rewrite init_bind_check.
    apply mbind_extends; [apply bind_frame_extends | intros; apply check_columns_extends].
  - intros self ts. rewrite drop_tissue_in_select. apply select_rows_extends.
  - intros self ts. rewrite keep_tissue_in_select. apply select_rows_extends.
Qed.

(** ** The tissue filters, one after the other *)

Section Chaining.
Import Pandas.

Lemma length_compress {A B} (m : list bool) (l1 : list A) (l2 : list B) :
  length l1 = length l2 -> length (compress m l1) = length (compress m l2).
Proof.
  revert l1 l2. induction m as [|b m IH]; intros [|x l1] [|y l2] H;
    try discriminate; try reflexivity.
  simpl in *. destruct b; simpl; [f_equal|]; apply IH; congruence.
Qed.

Lemma find_filter_keep (keep : string -> bool) (k : string) (t : table) :
  keep k = true ->
  List.find (label_eqb k) (List.filter (fun c => keep (fst c)) t)
  = List.find (label_eqb k) t.
Proof.
  intros Hk. induction t as [|c t IH]; [reflexivity|]. simpl.
  destruct (label_eqb k c) eqn:E.
  - unfold label_eqb in E. apply String.eqb_eq in E. rewrite <- E, Hk. simpl.
    unfold label_eqb. rewrite <- E. now rewrite String.eqb_refl.
  - destruct (keep (fst c)); simpl; [rewrite E|]; exact IH.
Qed.

Lemma required_special (name : string) : In name required -> special name = true.
Proof.
  intros H. simpl in H.
  repeat (destruct H as [<-|H]; [reflexivity|]). contradiction.
Qed.

Lemma tissue_required : In GenomicFeatures._col_tissue required.
Proof. now left. Qed.

Lemma well_formed_tissue (d : DataFrame) :
  well_formed d ->
  exists col, List.find (label_eqb GenomicFeatures._col_tissue) (data d)
              = Some (GenomicFeatures._col_tissue, col) /\
              length col = nrows d.
Proof.
  intros (Hrect & _ & Hreq).
  destruct (find_label_Some _ (data d) (Hreq _ tissue_required)) as [col Hcol].
  exists col. split; [exact Hcol|].
  apply List.find_some in Hcol as [Hin _].
  unfold rectangular in Hrect. rewrite Forall_forall in Hrect.
  apply (Hrect (GenomicFeatures._col_tissue, col)). now apply list_elem_of_In.
Qed.

(** The frame a filter leaves has the shape of the frame it started from. *)
Lemma selected_shape (m : list bool) (keep : string -> bool) (d : DataFrame) :
  well_formed d ->
  (forall k, special k = true -> keep k = true) ->
  let d' := {| index_name := index_name d;
               index := compress m (index d);
               data := List.filter (fun c => keep (fst c)) (masked m (data d)) |} in
  well_formed d' /\ forall x, In x (columns d') -> In x (columns d).
Proof.
  intros (Hrect & Hnd & Hreq) Hsp d'.
  assert (Hcols : columns d' = List.filter keep (columns d)).
  { unfold columns, d'. cbn [data]. now rewrite filter_map_fst, masked_labels. }
  split; [split; [|split]|].
  - unfold rectangular, d', nrows. cbn [data index].
    apply Forall_forall. intros c Hc. apply list_elem_of_In in Hc.
    apply List.filter_In in Hc as [Hc _].
    apply masked_In in Hc as (col0 & Hin & ->).
    apply length_compress. unfold rectangular in Hrect. rewrite Forall_forall in Hrect.
    apply (Hrect (fst c, col0)). now apply list_elem_of_In.
  - rewrite Hcols. now apply List.NoDup_filter.
  - intros name Hin. rewrite Hcols. apply List.filter_In.
    split; [now apply Hreq | apply Hsp; now apply required_special].
  - intros x. rewrite Hcols. intros Hx. now apply List.filter_In in Hx.
Qed.

Lemma select_rows_shape (mk : list cell -> list bool) (self : object) (w : world)
    (d : DataFrame) :
  frames w !! df self = Some d ->
  well_formed d ->
  exists r self' w' d',
    select_rows mk self w = (r, self', w') /\
    r <> Raise KeyError /\
    _sep self' = _sep self /\
    frames w' !! df self' = Some d' /\
    well_formed d' /\
    forall x, In x (columns d') -> In x (columns d).
Proof.
  intros Hd Hwf.
  destruct (well_formed_tissue d Hwf) as (col & Hfind & _).
  destruct (select_rows_outcome mk self w d col Hd Hfind (proj1 (proj2 Hwf)))
    as (keep & r & self' & w' & Hsel & Hr & Hlook & Hsp & _ & _).
  destruct (selected_shape (mk col) keep d Hwf Hsp) as [Hwf' Hsub].
  eexists r, self', w', _. split; [exact Hsel|].
  split; [destruct Hr as [-> | ->]; discriminate|].
  split.
  { unfold select_rows, mbind, load, lift, new in Hsel. rewrite Hd in Hsel.
    unfold getitem in Hsel. rewrite Hfind in Hsel.
    destruct (GenomicFeatures._cleanup _ 0 _) in Hsel. now injection Hsel as <- <- <-. }
  split; [exact Hlook|]. split; assumption.
Qed.

End Chaining.

(** Both filters keep the shape the next call relies on: on a frame with
    one cell per row in every column, unique labels and the three compulsory
    columns, the call never fails for a missing tissue column, and the frame
    it leaves has the same shape and no label that was not there.  Filters
    can therefore be chained. *)
Theorem filters_keep_shape (self : object) (ts : str_or_list) (w : world)
    (d : DataFrame) :
  frames w !! df self = Some d ->
  well_formed d ->
  (exists r self' w' d',
      GenomicFeatures.drop_tissue_in self ts w = (r, self', w') /\
      r <> Raise KeyError /\
      _sep self' = _sep self /\
      frames w' !! df self' = Some d' /\
      well_formed d' /\
      forall x, In x (columns d') -> In x (columns d)) /\
  (exists r self' w' d',
      GenomicFeatures.keep_tissue_in self ts w = (r, self', w') /\
      r <> Raise KeyError /\
      _sep self' = _sep self /\
      frames w' !! df self' = Some d' /\
      well_formed d' /\
      forall x, In x (columns d') -> In x (columns d)).
Proof.
  intros Hd Hwf. split.
  - rewrite drop_tissue_in_select. now apply select_rows_shape.
  - rewrite keep_tissue_in_select. now apply select_rows_shape.
Qed.

Lemma sample_well_formed : well_formed Sample.features_frame.
Proof.
  split; [|split].
  - unfold rectangular. repeat constructor.
  - distinct_labels.
  - intros name H. simpl in H. unfold columns. simpl.
    repeat (destruct H as [<-|H]; [tauto|]). contradiction.
Defined.

Lemma filters_keep_shape_witness :
  (exists r self' w' d',
      GenomicFeatures.drop_tissue_in Sample.gf (OneStr "skin") Sample.w_gf = (r, self', w') /\
      r <> Raise KeyError /\
      _sep self' = _sep Sample.gf /\
      frames w' !! df self' = Some d' /\
      well_formed d' /\
      forall x, In x (columns d') -> In x (columns Sample.features_frame)) /\
  (exists r self' w' d',
      GenomicFeatures.keep_tissue_in Sample.gf (OneStr "skin") Sample.w_gf = (r, self', w') /\
      r <> Raise KeyError /\
      _sep self' = _sep Sample.gf /\
      frames w' !! df self' = Some d' /\
      well_formed d' /\
      forall x, In x (columns d') -> In x (columns Sample.features_frame)).
Proof.
  apply (filters_keep_shape Sample.gf (OneStr "skin") Sample.w_gf Sample.features_frame).
  - reflexivity.
  - exact sample_well_formed.
Defined.

(** ** Rows kept and rows dropped *)

Section Rows_kept.
Import Pandas.

Lemma compress_complement {A} (m : list bool) (l : list A) :
  length m = length l ->
  length (compress m l) + length (compress (map (fun b => Bool.eqb b false) m) l)
  = length l.
Proof.
  revert l. induction m as [|b m IH]; intros [|x l] H; try discriminate; [reflexivity|].
  simpl in H. injection H as H. specialize (IH l H).
  destruct b; simpl; lia.
Qed.

Lemma compress_map_holds {A} (f : A -> bool) (l : list A) (x : A) :
  In x (compress (map f l) l) -> f x = true.
Proof.
  rewrite compress_map_filter. intros H. now apply List.filter_In in H.
Qed.

Lemma unique_In (l : list cell) (x : cell) : In x (unique l) -> In x l.
Proof.
  induction l as [|y l IH]; simpl; [tauto|].
  intros [->|H]; [now left|]. apply List.filter_In in H as [H _]. right. now apply IH.
Qed.

(** The tissue column of the frame a filter leaves. *)
Lemma selected_tissues (mk : list cell -> list bool) (self : object) (w : world)
    (d : DataFrame) (col : list cell) :
  frames w !! df self = Some d ->
  List.find (label_eqb GenomicFeatures._col_tissue) (data d)
  = Some (GenomicFeatures._col_tissue, col) ->
  List.NoDup (columns d) ->
  exists r self' w' d',
    select_rows mk self w = (r, self', w') /\
    frames w' !! df self' = Some d' /\
    index d' = compress (mk col) (index d) /\
    GenomicFeatures.tissues self' w' = (Ok (compress (mk col) col), w') /\
    GenomicFeatures.unique_tissues self' w'
    = (Ok (unique (compress (mk col) col)), w').
Proof.
  intros Hd Hfind Hnd.
  destruct (select_rows_outcome mk self w d col Hd Hfind Hnd)
    as (keep & r & self' & w' & Hsel & _ & Hlook & Hsp & _ & _).
  assert (Hget : getitem GenomicFeatures._col_tissue
                   {| index_name := index_name d; index := compress (mk col) (index d);
                      data := List.filter (fun c => keep (fst c))
                                          (masked (mk col) (data d)) |}
                 = Ok (compress (mk col) col)).
  { unfold getitem. cbn [data]. rewrite find_filter_keep by (apply Hsp; reflexivity).
    unfold masked. now rewrite (find_label_map (compress (mk col)) _ _ _ Hfind). }
  eexists r, self', w', _. split; [exact Hsel|]. split; [exact Hlook|].
  split; [reflexivity|].
  unfold GenomicFeatures.tissues, GenomicFeatures.unique_tissues, mbind, load, lift, ret.
  rewrite Hlook, Hget. split; reflexivity.
Qed.

End Rows_kept.

(** The two filters split the rows: on the same frame and the same list of
    tissues, the rows [keep_tissue_in] leaves and the rows [drop_tissue_in]
    leaves add up to the rows of the frame. *)
Theorem filters_split_rows (self : object) (ts : str_or_list) (w : world)
    (d : DataFrame) :
  frames w !! df self = Some d ->
  well_formed d ->
  exists rk gk wk dk rd gd wd dd,
    GenomicFeatures.keep_tissue_in self ts w = (rk, gk, wk) /\
    GenomicFeatures.drop_tissue_in self ts w = (rd, gd, wd) /\
    frames wk !! df gk = Some dk /\
    frames wd !! df gd = Some dd /\
    nrows dk + nrows dd = nrows d.
Proof.
  intros Hd Hwf.
  destruct (well_formed_tissue d Hwf) as (col & Hfind & Hlen).
  pose proof (proj1 (proj2 Hwf)) as Hnd.
  destruct (selected_tissues (Pandas.isin (to_list ts)) self w d col Hd Hfind Hnd)
    as (rk & gk & wk & dk & Hk & Hlk & Hik & _).
  destruct (selected_tissues
              (fun col => map (fun b => Bool.eqb b false) (Pandas.isin (to_list ts) col))
              self w d col Hd Hfind Hnd)
    as (rd & gd & wd & dd & Hdr & Hld & Hid & _).
  exists rk, gk, wk, dk, rd, gd, wd, dd.
  rewrite keep_tissue_in_select, drop_tissue_in_select.
  repeat (split; [assumption|]).
  unfold nrows. rewrite Hik, Hid. apply compress_complement.
  unfold Pandas.isin. rewrite length_map. exact Hlen.
Qed.

Lemma filters_split_rows_witness :
  exists rk gk wk dk rd gd wd dd,
    GenomicFeatures.keep_tissue_in Sample.gf (OneStr "lung") Sample.w_gf = (rk, gk, wk) /\
    GenomicFeatures.drop_tissue_in Sample.gf (OneStr "lung") Sample.w_gf = (rd, gd, wd) /\
    frames wk !! df gk = Some dk /\
    frames wd !! df gd = Some dd /\
    nrows dk + nrows dd = nrows Sample.features_frame.
Proof.
  apply (filters_split_rows Sample.gf (OneStr "lung") Sample.w_gf Sample.features_frame).
  - reflexivity.
  - exact sample_well_formed.
Defined.

(** After [keep_tissue_in] every entry of [tissues] and of [unique_tissues]
    is one of the tissues asked for; after [drop_tissue_in] none is. *)
Theorem tissues_after_filter (self : object) (ts : str_or_list) (w : world)
    (d : DataFrame) :
  frames w !! df self = Some d ->
  List.NoDup (columns d) ->
  Pandas.has_column GenomicFeatures._col_tissue d = true ->
  (exists r self' w' left,
      GenomicFeatures.keep_tissue_in self ts w = (r, self', w') /\
      GenomicFeatures.tissues self' w' = (Ok left, w') /\
      GenomicFeatures.unique_tissues self' w' = (Ok (Pandas.unique left), w') /\
      forall x, In x left \/ In x (Pandas.unique left) ->
                existsb (Pandas.cell_eqb x) (to_list ts) = true) /\
  (exists r self' w' left,
      GenomicFeatures.drop_tissue_in self ts w = (r, self', w') /\
      GenomicFeatures.tissues self' w' = (Ok left, w') /\
      GenomicFeatures.unique_tissues self' w' = (Ok (Pandas.unique left), w') /\
      forall x, In x left \/ In x (Pandas.unique left) ->
                existsb (Pandas.cell_eqb x) (to_list ts) = false).
Proof.
  intros Hd Hnd Hcol.
  destruct (getitem_present _ _ Hcol) as (col & _ & Hfind).
  split.
  - destruct (selected_tissues (Pandas.isin (to_list ts)) self w d col Hd Hfind Hnd)
      as (r & self' & w' & d' & Hsel & _ & _ & Ht & Hu).
    eexists r, self', w', _. rewrite keep_tissue_in_select.
    split; [exact Hsel|]. split; [exact Ht|]. split; [exact Hu|].
    intros x Hx.
    assert (Hin : In x (Pandas.compress (Pandas.isin (to_list ts) col) col))
      by (destruct Hx as [Hx|Hx]; [exact Hx | now apply unique_In]).
    now apply (compress_map_holds (fun c => existsb (Pandas.cell_eqb c) (to_list ts))) in Hin.
  - destruct (selected_tissues
                (fun col => map (fun b => Bool.eqb b false) (Pandas.isin (to_list ts) col))
                self w d col Hd Hfind Hnd)
      as (r & self' & w' & d' & Hsel & _ & _ & Ht & Hu).
    eexists r, self', w', _. rewrite drop_tissue_in_select.
    split; [exact Hsel|]. split; [exact Ht|]. split; [exact Hu|].
    intros x Hx.
    assert (Hin : In x (Pandas.compress
                          (map (fun b => Bool.eqb b false) (Pandas.isin (to_list ts) col))
                          col))
      by (destruct Hx as [Hx|Hx]; [exact Hx | now apply unique_In]).
    unfold Pandas.isin in Hin. rewrite map_map in Hin.
    apply (compress_map_holds
             (fun c => Bool.eqb (existsb (Pandas.cell_eqb c) (to_list ts)) false)) in Hin.
    now destruct (existsb (Pandas.cell_eqb x) (to_list ts)).
Qed.

Lemma tissues_after_filter_witness :
  (exists r self' w' left,
      GenomicFeatures.keep_tissue_in Sample.gf (OneStr "lung") Sample.w_gf = (r, self', w') /\
      GenomicFeatures.tissues self' w' = (Ok left, w') /\
      GenomicFeatures.unique_tissues self' w' = (Ok (Pandas.unique left), w') /\
      forall x, In x left \/ In x (Pandas.unique left) ->
                existsb (Pandas.cell_eqb x) [CStr "lung"] = true) /\
  (exists r self' w' left,
      GenomicFeatures.drop_tissue_in Sample.gf (OneStr "lung") Sample.w_gf = (r, self', w') /\
      GenomicFeatures.tissues self' w' = (Ok left, w') /\
      GenomicFeatures.unique_tissues self' w' = (Ok (Pandas.unique left), w') /\
      forall x, In x left \/ In x (Pandas.unique left) ->
                existsb (Pandas.cell_eqb x) [CStr "lung"] = false).
Proof.
  apply (tissues_after_filter Sample.gf (OneStr "lung") Sample.w_gf Sample.features_frame).
  - reflexivity.
  - distinct_labels.
  - reflexivity.
Defined.

(** Without a tissue column both filters raise [KeyError] and change
    nothing: neither the object nor the state. *)
Theorem filter_without_tissue_column (self : object) (ts : str_or_list) (w : world)
    (d : DataFrame) :
  frames w !! df self = Some d ->
  Pandas.has_column GenomicFeatures._col_tissue d = false ->
  GenomicFeatures.drop_tissue_in self ts w = (Raise KeyError, self, w) /\
  GenomicFeatures.keep_tissue_in self ts w = (Raise KeyError, self, w).
Proof.
  intros Hd Hcol. apply has_column_false in Hcol.
  pose proof (find_label_None _ _ Hcol) as Hfind.
  unfold GenomicFeatures.drop_tissue_in, GenomicFeatures.keep_tissue_in,
    mbind, load, lift, Pandas.getitem.
  rewrite Hd, Hfind. split; reflexivity.
Qed.

Lemma filter_without_tissue_column_witness :
  GenomicFeatures.drop_tissue_in {| _sep := tab; df := 0 |} (OneStr "lung") Sample.w_ic50
  = (Raise KeyError, {| _sep := tab; df := 0 |}, Sample.w_ic50) /\
  GenomicFeatures.keep_tissue_in {| _sep := tab; df := 0 |} (OneStr "lung") Sample.w_ic50
  = (Raise KeyError, {| _sep := tab; df := 0 |}, Sample.w_ic50).
Proof.
  apply (filter_without_tissue_column {| _sep := tab; df := 0 |} (OneStr "lung")
           Sample.w_ic50 Sample.ic50_frame); reflexivity.
Defined.

(** ** The exact outcome of the filters *)

Section Exact.
Import Pandas.

Lemma NoDup_fst_inj (t : table) (a b : string * list cell) :
  List.NoDup (map fst t) -> In a t -> In b t -> fst a = fst b -> a = b.
Proof.
  induction t as [|c t IH]; intros Hnd Ha Hb Hab; [contradiction|].
  simpl in Hnd. inversion Hnd as [|? ? Hnotin Hnd']; subst.
  destruct Ha as [->|Ha], Hb as [->|Hb]; try reflexivity.
  - exfalso. apply Hnotin. rewrite Hab. now apply List.in_map.
  - exfalso. apply Hnotin. rewrite <- Hab. now apply List.in_map.
  - now apply IH.
Qed.

Lemma cleanup_exact (self : object) (required_features : Q) (w : world)
    (d1 : DataFrame) :
  frames w !! df self = Some d1 ->
  List.NoDup (columns d1) ->
  GenomicFeatures._cleanup self required_features w
  = match GenomicFeatures.sums (view d1) with
    | Ok _ => (Ok tt, {| frames := <[df self := prune required_features d1]> (frames w);
                         files := files w; resplit := resplit w |})
    | Raise e => (Raise e, w)
    end.
Proof.
  intros Hd1 Hnd.
  assert (Hview : getitem_list
                    (List.filter (fun x => negb (special x)) (columns d1)) d1
                  = Ok {| index_name := index_name d1; index := index d1;
                          data := view d1 |}).
  { unfold getitem_list. rewrite forallb_has_column_filter.
    pose proof (select_filtered_labels (fun x => negb (special x)) [] (data d1) Hnd)
      as Hflat.
    simpl in Hflat. unfold columns, view. now rewrite Hflat. }
  unfold GenomicFeatures._cleanup, mbind, load, lift, store.
  rewrite Hd1.
  change (fun x : string => negb (existsb (String.eqb x)
      [GenomicFeatures._col_tissue; GenomicFeatures._col_msi;
       GenomicFeatures._col_sample])) with (fun x => negb (special x)).
  rewrite Hview. cbn [data].
  destruct (GenomicFeatures.sums (view d1)) as [total|e] eqn:Esums; [|reflexivity].
  pose proof (todrop_labels (fun s => Qle_bool s required_features) (view d1) total Esums)
    as Htd.
  change (compress (map (fun s => Qle_bool s required_features) total) (map fst (view d1))
          = map fst (List.filter (low_total required_features) (view d1))) in Htd.
  change (columns {| index_name := index_name d1; index := index d1; data := view d1 |})
    with (map fst (view d1)).
  rewrite Htd.
  set (todrop := map fst (List.filter (low_total required_features) (view d1))).
  assert (Hall : forallb (fun k => has_column k d1) todrop = true).
  { apply forallb_forall. intros k Hk. apply has_column_In.
    unfold todrop in Hk. apply List.in_map_iff in Hk as (c & <- & Hc).
    apply List.filter_In in Hc as [Hc _]. unfold view in Hc.
    apply List.filter_In in Hc as [Hc _]. now apply List.in_map. }
  unfold drop. rewrite Hall. unfold prune. do 4 f_equal.
  apply List.filter_ext_in. intros c Hc.
  destruct (special (fst c)) eqn:Hsp; simpl.
  - apply Bool.negb_true_iff. apply Bool.not_true_is_false.
    rewrite existsb_exists. intros (k & Hk & He).
    unfold label_eqb in He. apply String.eqb_eq in He. subst k.
    unfold todrop in Hk. apply List.in_map_iff in Hk as (c' & Hc' & Hin).
    apply List.filter_In in Hin as [Hin _]. unfold view in Hin.
    apply List.filter_In in Hin as [_ Hin]. rewrite Hc', Hsp in Hin. discriminate.
  - f_equal. destruct (low_total required_features c) eqn:Elow.
    + apply existsb_exists. exists (fst c). split; [|apply String.eqb_refl].
      unfold todrop. apply List.in_map. apply List.filter_In. split; [|exact Elow].
      unfold view. apply List.filter_In. split; [exact Hc|]. now rewrite Hsp.
    + apply Bool.not_true_is_false. rewrite existsb_exists. intros (k & Hk & He).
      unfold label_eqb in He. apply String.eqb_eq in He. subst k.
      unfold todrop in Hk. apply List.in_map_iff in Hk as (c' & Hc' & Hin).
      apply List.filter_In in Hin as [Hin Hlow]. unfold view in Hin.
      apply List.filter_In in Hin as [Hin _].
      rewrite (NoDup_fst_inj (data d1) c' c Hnd Hin Hc Hc') in Hlow. congruence.
Qed.

Lemma select_rows_exact (mk : list cell -> list bool) (self : object) (w : world)
    (d : DataFrame) (col : list cell) :
  frames w !! df self = Some d ->
  getitem GenomicFeatures._col_tissue d = Ok col ->
  List.NoDup (columns d) ->
  select_rows mk self w
  = (match GenomicFeatures.sums (view (getitem_mask (mk col) d)) with
     | Ok _ => Ok tt
     | Raise e => Raise e
     end,
     {| _sep := _sep self; df := length (frames w) |},
     {| frames := frames w ++ [filtered (mk col) d];
        files := files w; resplit := resplit w |}).
Proof.
  intros Hd Hget Hnd.
  set (d1 := getitem_mask (mk col) d).
  set (w1 := {| frames := frames w ++ [d1]; files := files w; resplit := resplit w |}).
  set (self' := {| _sep := _sep self; df := length (frames w) |}).
  assert (Hd1 : frames w1 !! df self' = Some d1) by apply lookup_new.
  assert (Hnd1 : List.NoDup (columns d1)).
  { unfold columns, d1, getitem_mask. cbn [data]. fold (masked (mk col) (data d)).
    now rewrite masked_labels. }
  pose proof (cleanup_exact self' 0 w1 d1 Hd1 Hnd1) as Hclean.
  unfold select_rows, mbind, load, lift, new. rewrite Hd, Hget.
  fold d1. fold w1. fold self'. rewrite Hclean. unfold filtered. fold d1.
  destruct (GenomicFeatures.sums (view d1)); [|reflexivity].
  unfold w1, self'. cbn [frames files resplit df]. now rewrite insert_last.
Qed.

End Exact.

Section Twice.
Import Pandas.

Lemma compress_all {A} (m : list bool) (l : list A) :
  length m = length l -> (forall b, In b m -> b = true) -> compress m l = l.
Proof.
  revert l. induction m as [|b m IH]; intros [|x l] Hlen Hall; try discriminate;
    [reflexivity|].
  simpl. rewrite (Hall b (or_introl eq_refl)). f_equal. apply IH.
  - simpl in Hlen. congruence.
  - intros b' Hb'. apply Hall. now right.
Qed.

Lemma compress_none {A} (m : list bool) (l : list A) :
  (forall b, In b m -> b = false) -> compress m l = [].
Proof.
  revert l. induction m as [|b m IH]; intros [|x l] Hall; try reflexivity.
  simpl. rewrite (Hall b (or_introl eq_refl)). apply IH.
  intros b' Hb'. apply Hall. now right.
Qed.

Lemma getitem_mask_all (m : list bool) (d : DataFrame) :
  rectangular d -> length m = nrows d -> (forall b, In b m -> b = true) ->
  getitem_mask m d = d.
Proof.
  intros Hrect Hlen Hall. destruct d as [name idx cols]. unfold getitem_mask.
  cbn [index_name index data] in *. unfold nrows in Hlen. cbn [index] in Hlen.
  f_equal; [now apply compress_all|].
  unfold rectangular, nrows in Hrect. cbn [index data] in Hrect.
  rewrite <- (map_id cols) at 2. apply map_ext_in. intros [k col] Hin.
  rewrite Forall_forall in Hrect. specialize (Hrect (k, col)).
  rewrite list_elem_of_In in Hrect. specialize (Hrect Hin). simpl in *.
  f_equal. apply compress_all; [congruence | exact Hall].
Qed.

Lemma getitem_mask_wf (m : list bool) (d : DataFrame) :
  well_formed d -> well_formed (getitem_mask m d).
Proof.
  intros Hwf.
  destruct (selected_shape m (fun _ => true) d Hwf (fun _ _ => eq_refl)) as [H _].
  rewrite filter_true in H. exact H.
Qed.

Lemma NoDup_labels_filter (P : string * list cell -> bool) (t : table) :
  List.NoDup (map fst t) -> List.NoDup (map fst (List.filter P t)).
Proof.
  induction t as [|c t IH]; intros Hnd; simpl; [constructor|].
  inversion Hnd as [|? ? Hnotin Hnd']; subst.
  destruct (P c); simpl; [|now apply IH].
  constructor; [|now apply IH].
  intros Hin. apply Hnotin. apply List.in_map_iff in Hin as (c' & Hc' & Hin).
  apply List.filter_In in Hin as [Hin _]. rewrite <- Hc'. now apply List.in_map.
Qed.

Lemma prune_wf (required_features : Q) (d : DataFrame) :
  well_formed d -> well_formed (prune required_features d).
Proof.
  intros (Hrect & Hnd & Hreq). split; [|split].
  - unfold rectangular, prune, nrows in *. cbn [data index].
    apply Forall_forall. intros c Hc. apply list_elem_of_In in Hc.
    apply List.filter_In in Hc as [Hc _]. rewrite Forall_forall in Hrect.
    apply Hrect. now apply list_elem_of_In.
  - unfold columns, prune. cbn [data]. now apply NoDup_labels_filter.
  - intros name Hin. specialize (Hreq name Hin). unfold columns in *.
    apply List.in_map_iff in Hreq as (c & Hc & Hcin).
    apply List.in_map_iff. exists c. split; [exact Hc|].
    unfold prune. cbn [data]. apply List.filter_In. split; [exact Hcin|].
    rewrite Hc, (required_special name Hin). reflexivity.
Qed.

Lemma filtered_wf (m : list bool) (d : DataFrame) :
  well_formed d -> well_formed (filtered m d).
Proof.
  intros Hwf. unfold filtered.
  destruct (GenomicFeatures.sums _); [apply prune_wf|]; now apply getitem_mask_wf.
Qed.

Lemma find_filter_column (P : string * list cell -> bool) (k : string) (t : table) c :
  List.find (label_eqb k) t = Some c -> P c = true ->
  List.find (label_eqb k) (List.filter P t) = Some c.
Proof.
  induction t as [|c0 t IH]; simpl; [discriminate|].
  destruct (label_eqb k c0) eqn:E.
  - intros [= ->] Hp. rewrite Hp. simpl. now rewrite E.
  - intros Hfind Hp. destruct (P c0); simpl; [rewrite E|]; now apply IH.
Qed.

Lemma filtered_tissue (m : list bool) (d : DataFrame) (col : list cell) :
  List.find (label_eqb GenomicFeatures._col_tissue) (data d)
  = Some (GenomicFeatures._col_tissue, col) ->
  getitem GenomicFeatures._col_tissue (filtered m d) = Ok (compress m col).
Proof.
  intros Hfind.
  pose proof (find_label_map (compress m) _ _ _ Hfind) as Hmask.
  unfold filtered, getitem.
  destruct (GenomicFeatures.sums _).
  - unfold prune. cbn [data getitem_mask].
    rewrite (find_filter_column _ _ _ _ Hmask eq_refl). reflexivity.
  - cbn [getitem_mask data]. now rewrite Hmask.
Qed.

Lemma sums_each (cols : table) total :
  GenomicFeatures.sums cols = Ok total ->
  forall c, In c cols -> exists s, sum (snd c) = Ok s.
Proof.
  revert total. induction cols as [|c0 cols IH]; intros total H c Hc; [contradiction|].
  simpl in H. destruct (sum (snd c0)) as [s0|] eqn:E0; [|discriminate].
  destruct (GenomicFeatures.sums cols) as [ss|] eqn:Ess; [|discriminate].
  destruct Hc as [<-|Hc]; [eauto | eapply IH; eauto].
Qed.

(** Filtering again the frame a filter left changes nothing. *)
Lemma filtered_again (m2 : list bool) (m : list bool) (d : DataFrame) :
  well_formed d ->
  length m2 = nrows (filtered m d) ->
  (forall b, In b m2 -> b = true) ->
  filtered m2 (filtered m d) = filtered m d /\
  GenomicFeatures.sums (view (getitem_mask m2 (filtered m d)))
  = GenomicFeatures.sums (view (filtered m d)) /\
  (forall a, GenomicFeatures.sums (view (getitem_mask m d)) = Ok a ->
             exists b, GenomicFeatures.sums (view (filtered m d)) = Ok b) /\
  (forall e, GenomicFeatures.sums (view (getitem_mask m d)) = Raise e ->
             GenomicFeatures.sums (view (filtered m d)) = Raise e).
Proof.
  intros Hwf Hlen Hall.
  pose proof (filtered_wf m d Hwf) as (Hrect & _ & _).
  rewrite (getitem_mask_all m2 _ Hrect Hlen Hall).
  unfold filtered at 1. rewrite (getitem_mask_all m2 _ Hrect Hlen Hall).
  unfold filtered.
  destruct (GenomicFeatures.sums (view (getitem_mask m d))) as [total|e] eqn:Es.
  - assert (Hsub : exists b, GenomicFeatures.sums (view (prune 0 (getitem_mask m d))) = Ok b).
    { apply sums_Ok. intros c Hc. apply (sums_each _ _ Es).
      unfold view, prune in *. cbn [data] in Hc.
      apply List.filter_In in Hc as [Hc Hsp]. apply List.filter_In in Hc as [Hc _].
      apply List.filter_In. split; assumption. }
    destruct Hsub as [b Hb]. rewrite Hb.
    split; [|split; [reflexivity|split; [eauto | discriminate]]].
    unfold prune. cbn [index_name index data]. f_equal.
    apply filter_filter_id. intros c Hc. exact Hc.
  - rewrite Es. split; [reflexivity|]. split; [reflexivity|].
    split; [discriminate | intros e' [= <-]; reflexivity].
Qed.

Lemma select_rows_twice (f : cell -> bool) (self : object) (w : world) (d : DataFrame) :
  frames w !! df self = Some d ->
  well_formed d ->
  exists r self1 w1 d1 self2 w2,
    select_rows (map f) self w = (r, self1, w1) /\
    frames w1 !! df self1 = Some d1 /\
    select_rows (map f) self1 w1 = (r, self2, w2) /\
    frames w2 !! df self2 = Some d1.
Proof.
  intros Hd Hwf.
  destruct (well_formed_tissue d Hwf) as (col & Hfind & Hlen).
  assert (Hget : getitem GenomicFeatures._col_tissue d = Ok col)
    by (unfold getitem; now rewrite Hfind).
  pose proof (select_rows_exact (map f) self w d col Hd Hget (proj1 (proj2 Hwf))) as H1.
  set (d1 := filtered (map f col) d) in *.
  set (self1 := {| _sep := _sep self; df := length (frames w) |}) in *.
  set (w1 := {| frames := frames w ++ [d1]; files := files w; resplit := resplit w |}) in *.
  assert (Hd1 : frames w1 !! df self1 = Some d1) by apply lookup_new.
  pose proof (filtered_wf (map f col) d Hwf) as Hwf1. fold d1 in Hwf1.
  pose proof (filtered_tissue (map f col) d col Hfind) as Hget1. fold d1 in Hget1.
  pose proof (select_rows_exact (map f) self1 w1 d1 _ Hd1 Hget1 (proj1 (proj2 Hwf1))) as H2.
  set (m2 := map f (compress (map f col) col)) in *.
  assert (Hall : forall b, In b m2 -> b = true).
  { intros b Hb. unfold m2 in Hb. apply List.in_map_iff in Hb as (x & <- & Hx).
    now apply compress_map_holds in Hx. }
  assert (Hlen2 : length m2 = nrows d1).
  { unfold m2. rewrite length_map.
    destruct (well_formed_tissue d1 Hwf1) as (col1 & Hfind1 & Hlen1).
    unfold getitem in Hget1. rewrite Hfind1 in Hget1. injection Hget1 as <-.
    exact Hlen1. }
  destruct (filtered_again m2 (map f col) d Hwf Hlen2 Hall) as (Hsame & Hsums & Hok & Herr).
  fold d1 in Hsame, Hsums, Hok, Herr. rewrite Hsame, Hsums in H2.
  assert (Hr : match GenomicFeatures.sums (view d1) with
               | Ok _ => Ok tt
               | Raise e => Raise e
               end
             = match GenomicFeatures.sums (view (getitem_mask (map f col) d)) with
               | Ok _ => Ok tt
               | Raise e => Raise e
               end).
  { destruct (GenomicFeatures.sums (view (getitem_mask (map f col) d))) as [a|e].
    - destruct (Hok a eq_refl) as [b ->]. reflexivity.
    - now rewrite (Herr e eq_refl). }
  rewrite Hr in H2.
  eexists _, self1, w1, d1, _, _.
  split; [exact H1|]. split; [exact Hd1|]. split; [exact H2|].
  cbn [frames df]. apply lookup_new.
Qed.

End Twice.

(** Applying a filter a second time with the same tissues changes nothing:
    the second call has the outcome of the first and leaves a frame with
    the same index, columns and cells. *)
Theorem filter_twice (self : object) (ts : str_or_list) (w : world) (d : DataFrame) :
  frames w !! df self = Some d ->
  well_formed d ->
  (exists r self1 w1 d1 self2 w2,
      GenomicFeatures.keep_tissue_in self ts w = (r, self1, w1) /\
      frames w1 !! df self1 = Some d1 /\
      GenomicFeatures.keep_tissue_in self1 ts w1 = (r, self2, w2) /\
      frames w2 !! df self2 = Some d1) /\
  (exists r self1 w1 d1 self2 w2,
      GenomicFeatures.drop_tissue_in self ts w = (r, self1, w1) /\
      frames w1 !! df self1 = Some d1 /\
      GenomicFeatures.drop_tissue_in self1 ts w1 = (r, self2, w2) /\
      frames w2 !! df self2 = Some d1).
Proof.
  intros Hd Hwf. split.
  - exact (select_rows_twice (fun c => existsb (Pandas.cell_eqb c) (to_list ts))
             self w d Hd Hwf).
  - pose proof (select_rows_twice
                  (fun c => Bool.eqb (existsb (Pandas.cell_eqb c) (to_list ts)) false)
                  self w d Hd Hwf) as H.
    assert (Hmk : forall s w0,
               GenomicFeatures.drop_tissue_in s ts w0
               = select_rows
                   (map (fun c => Bool.eqb (existsb (Pandas.cell_eqb c) (to_list ts)) false))
                   s w0).
    { intros s w0. rewrite drop_tissue_in_select. unfold select_rows, Pandas.isin.
      unfold mbind, load, lift, new. destruct (frames w0 !! df s); [|reflexivity].
      destruct (Pandas.getitem _ _); [|reflexivity]. now rewrite map_map. }
    destruct H as (r & self1 & w1 & d1 & self2 & w2 & H1 & Hd1 & H2 & Hd2).
    exists r, self1, w1, d1, self2, w2. rewrite !Hmk. repeat split; assumption.
Qed.

Lemma filter_twice_witness :
  (exists r self1 w1 d1 self2 w2,
      GenomicFeatures.keep_tissue_in Sample.gf (OneStr "lung") Sample.w_gf = (r, self1, w1) /\
      frames w1 !! df self1 = Some d1 /\
      GenomicFeatures.keep_tissue_in self1 (OneStr "lung") w1 = (r, self2, w2) /\
      frames w2 !! df self2 = Some d1) /\
  (exists r self1 w1 d1 self2 w2,
      GenomicFeatures.drop_tissue_in Sample.gf (OneStr "lung") Sample.w_gf = (r, self1, w1) /\
      frames w1 !! df self1 = Some d1 /\
      GenomicFeatures.drop_tissue_in self1 (OneStr "lung") w1 = (r, self2, w2) /\
      frames w2 !! df self2 = Some d1).
Proof.
  apply (filter_twice Sample.gf (OneStr "lung") Sample.w_gf Sample.features_frame).
  - reflexivity.
  - exact sample_well_formed.
Defined.

(** ** Tissues that do not occur *)

Section No_match.
Import Pandas.

Lemma filter_map_swap {A B} (P : B -> bool) (g : A -> B) (l : list A) :
  List.filter P (map g l) = map g (List.filter (fun x => P (g x)) l).
Proof.
  induction l as [|x l IH]; simpl; [reflexivity|].
  destruct (P (g x)); simpl; now rewrite IH.
Qed.

Lemma getitem_mask_none (m : list bool) (d : DataFrame) :
  (forall b, In b m -> b = false) ->
  getitem_mask m d
  = {| index_name := index_name d; index := [];
       data := map (fun c => (fst c, [])) (data d) |}.
Proof.
  intros Hnone. unfold getitem_mask. f_equal; [now apply compress_none|].
  apply map_ext. intros c. f_equal. now apply compress_none.
Qed.

End No_match.

(** When no row has one of the tissues asked for (an empty list, a tissue
    that does not occur): [keep_tissue_in] returns and leaves a frame with
    no row and only the informative columns, every feature column being
    pruned; [drop_tissue_in] keeps every row, and only prunes the columns
    whose total is not positive. *)
Theorem filter_without_match (self : object) (ts : str_or_list) (w : world)
    (d : DataFrame) (col : list cell) :
  frames w !! df self = Some d ->
  well_formed d ->
  Pandas.getitem GenomicFeatures._col_tissue d = Ok col ->
  (forall x, In x col -> existsb (Pandas.cell_eqb x) (to_list ts) = false) ->
  (exists self' w',
      GenomicFeatures.keep_tissue_in self ts w = (Ok tt, self', w') /\
      frames w' !! df self'
      = Some {| index_name := index_name d; index := [];
                data := map (fun c => (fst c, []))
                            (List.filter (fun c => special (fst c)) (data d)) |}) /\
  (exists r self' w',
      GenomicFeatures.drop_tissue_in self ts w = (r, self', w') /\
      frames w' !! df self'
      = Some match GenomicFeatures.sums (view d) with
             | Ok _ => prune 0 d
             | Raise _ => d
             end).
Proof.
  intros Hd Hwf Hget Hnone.
  pose proof (proj1 (proj2 Hwf)) as Hnd.
  assert (Hlen : length col = nrows d).
  { destruct (well_formed_tissue d Hwf) as (col' & Hfind & Hlen).
    unfold Pandas.getitem in Hget. rewrite Hfind in Hget. now injection Hget as <-. }
  split.
  - rewrite keep_tissue_in_select.
    rewrite (select_rows_exact _ self w d col Hd Hget Hnd).
    assert (Hm : forall b, In b (Pandas.isin (to_list ts) col) -> b = false).
    { intros b Hb. unfold Pandas.isin in Hb. apply List.in_map_iff in Hb as (x & <- & Hx).
      now apply Hnone. }
    unfold filtered. rewrite (getitem_mask_none _ d Hm).
    set (d0 := {| index_name := index_name d; index := [];
                  data := map (fun c => (fst c, [])) (data d) |}).
    destruct (sums_Ok (view d0)) as [total Ht].
    { intros c Hc. unfold view, d0 in Hc. cbn [data] in Hc.
      apply List.filter_In in Hc as [Hc _].
      apply List.in_map_iff in Hc as (c0 & <- & _). exists 0%Q. reflexivity. }
    rewrite Ht. eexists _, _. split; [reflexivity|]. cbn [frames df].
    rewrite lookup_new. f_equal. unfold prune, d0. cbn [index_name index data].
    f_equal. rewrite filter_map_swap. f_equal.
    apply List.filter_ext. intros c. cbn [fst].
    unfold low_total. cbn [snd Pandas.sum]. now rewrite Bool.orb_false_r.
  - rewrite drop_tissue_in_select.
    rewrite (select_rows_exact _ self w d col Hd Hget Hnd).
    assert (Hm : forall b,
               In b (map (fun b => Bool.eqb b false) (Pandas.isin (to_list ts) col)) ->
               b = true).
    { intros b Hb. unfold Pandas.isin in Hb. rewrite map_map in Hb.
      apply List.in_map_iff in Hb as (x & <- & Hx). now rewrite (Hnone x Hx). }
    unfold filtered. rewrite (getitem_mask_all _ d (proj1 Hwf)); [|
      unfold Pandas.isin; now rewrite !length_map | exact Hm].
    eexists _, _, _. split; [reflexivity|]. cbn [frames df]. apply lookup_new.
Qed.

Lemma filter_without_match_witness :
  (exists self' w',
      GenomicFeatures.keep_tissue_in Sample.gf (SomeList []) Sample.w_gf = (Ok tt, self', w') /\
      frames w' !! df self'
      = Some {| index_name := Some "COSMIC ID"; index := [];
                data := [("Tissue Factor Value", []); ("Sample Name", []);
                         ("MS-instability Factor Value", [])] |}) /\
  (exists r self' w',
      GenomicFeatures.drop_tissue_in Sample.gf (SomeList []) Sample.w_gf = (r, self', w') /\
      frames w' !! df self' = Some (prune 0 Sample.features_frame)).
Proof.
  apply (filter_without_match Sample.gf (SomeList []) Sample.w_gf Sample.features_frame
           [CStr "lung"; CStr "skin"; CStr "lung"]).
  - reflexivity.
  - exact sample_well_formed.
  - reflexivity.
  - intros x _. reflexivity.
Defined.

(** ** Measured values of an [IC50] *)

Section Measured.
Import Pandas.

Lemma concat_empty {A} (cols : list (list A)) :
  Forall (fun c => length c = 0) cols -> concat cols = [].
Proof.
  induction 1 as [|c cols Hc _ IH]; [reflexivity|].
  simpl. rewrite IH. destruct c; [reflexivity | discriminate].
Qed.

Lemma concat_heads_tails (n : nat) (cols : list (list cell)) :
  Forall (fun c => length c = S n) cols ->
  concat cols ≡ₚ map (hd CNaN) cols ++ concat (map (@tl cell) cols).
Proof.
  induction 1 as [|c cols Hc _ IH]; [reflexivity|].
  destruct c as [|x t]; [discriminate|]. simpl.
  apply perm_skip. rewrite IH. apply Permutation_app_swap_app.
Qed.

Lemma tails_length (n : nat) (cols : list (list cell)) :
  Forall (fun c => length c = S n) cols ->
  Forall (fun c => length c = n) (map (@tl cell) cols).
Proof.
  induction 1 as [|c cols Hc _ IH]; simpl; constructor; [|exact IH].
  destruct c; simpl in *; congruence.
Qed.

(** The cells read row after row are the cells read column after column,
    in another order. *)
Lemma flatten_Permutation (n : nat) (cols : list (list cell)) :
  Forall (fun c => length c = n) cols -> flatten n cols ≡ₚ concat cols.
Proof.
  revert cols. induction n as [|n IH]; intros cols Hlen; simpl.
  - now rewrite concat_empty.
  - rewrite (concat_heads_tails n cols Hlen).
    apply Permutation_app_head. apply IH. now apply tails_length.
Qed.

Lemma Permutation_filter_length {A} (P : A -> bool) (l l' : list A) :
  l ≡ₚ l' -> length (List.filter P l) = length (List.filter P l').
Proof.
  induction 1 as [|x l l' _ IH|x y l|l1 l2 l3 _ IH1 _ IH2]; simpl.
  - reflexivity.
  - destruct (P x); simpl; now rewrite IH.
  - destruct (P x), (P y); reflexivity.
  - congruence.
Qed.

Lemma concat_length (n : nat) (cols : list (list cell)) :
  Forall (fun c => length c = n) cols -> length (concat cols) = length cols * n.
Proof.
  induction 1 as [|c cols Hc _ IH]; [reflexivity|].
  simpl. rewrite length_app, IH, Hc. reflexivity.
Qed.

Lemma not_nan_numbers (values : list cell) :
  (forall x s, In x values -> x <> CStr s) ->
  IC50.not_nan values = Ok (List.filter (fun c => negb (isnull c)) values).
Proof.
  induction values as [|x values IH]; intros H; [reflexivity|].
  simpl. rewrite IH by (intros y s Hy; apply H; now right).
  destruct x as [|q|s]; [reflexivity | reflexivity |].
  exfalso. apply (H (CStr s) s); [now left | reflexivity].
Qed.

Lemma not_nan_string (values : list cell) (s : string) :
  In (CStr s) values -> IC50.not_nan values = Raise TypeError.
Proof.
  induction values as [|x values IH]; intros H; [contradiction|].
  destruct H as [->|H]; [reflexivity|].
  simpl. rewrite (IH H). now destruct x.
Qed.

Lemma rectangular_columns (d : DataFrame) :
  rectangular d -> Forall (fun c => length c = nrows d) (map snd (data d)).
Proof.
  intros H. apply Forall_map. exact H.
Qed.

End Measured.

(** [hist] returns the measured values of the frame: on a frame of numbers
    and missing values, with one cell per row in every column, the cells
    that are not missing, so that their number and the number of missing
    cells add up to columns times rows; a string anywhere in the frame makes
    it raise [TypeError]. *)
Theorem hist_measured (self : object) (w : world) (d : DataFrame) :
  frames w !! df self = Some d ->
  rectangular d ->
  (numeric d ->
   exists values,
     IC50.hist self w = (Ok values, w) /\
     length values + null_cells d = length (columns d) * nrows d /\
     forall x, In x values -> Pandas.isnull x = false /\ In x (cells d)) /\
  (forall s, In (CStr s) (cells d) -> IC50.hist self w = (Raise TypeError, w)).
Proof.
  intros Hd Hrect.
  pose proof (flatten_Permutation (nrows d) (map snd (data d)) (rectangular_columns d Hrect))
    as Hperm.
  fold (Pandas.values_flatten d) in Hperm. fold (cells d) in Hperm.
  split.
  - intros Hnum.
    assert (Hflat : forall x s, In x (Pandas.values_flatten d) -> x <> CStr s).
    { intros x s Hx. apply (Permutation_in _ Hperm) in Hx.
      unfold cells in Hx. apply List.in_concat in Hx as (col & Hcol & Hx).
      apply List.in_map_iff in Hcol as (c & <- & Hc). now apply (Hnum c x s). }
    eexists. split.
    { unfold IC50.hist, mbind, load, lift. rewrite Hd.
      now rewrite (not_nan_numbers _ Hflat). }
    split.
    + rewrite (Permutation_filter_length _ _ _ Hperm). unfold null_cells.
      rewrite Nat.add_comm, List.filter_length.
      unfold cells, columns. rewrite (concat_length (nrows d)), !length_map;
        [reflexivity | now apply rectangular_columns].
    + intros x Hx. apply List.filter_In in Hx as [Hx Hnn]. split.
      * now apply Bool.negb_true_iff.
      * now apply (Permutation_in _ Hperm).
  - intros s Hs. unfold IC50.hist, mbind, load, lift. rewrite Hd.
    rewrite (not_nan_string _ s); [reflexivity|].
    apply (Permutation_in _ (Permutation_sym Hperm)). exact Hs.
Qed.

Lemma hist_measured_witness :
  (exists values,
      IC50.hist {| _sep := tab; df := 0 |} Sample.w_ic50 = (Ok values, Sample.w_ic50) /\
      length values + null_cells Sample.ic50_frame
      = length (columns Sample.ic50_frame) * nrows Sample.ic50_frame) /\
  IC50.hist Sample.gf Sample.w_gf = (Raise TypeError, Sample.w_gf).
Proof.
  split.
  - destruct (hist_measured {| _sep := tab; df := 0 |} Sample.w_ic50 Sample.ic50_frame)
      as [Hnum _].
    + reflexivity.
    + unfold rectangular. repeat constructor.
    + destruct Hnum as (values & Hhist & Hlen & _).
      * intros c x s Hc Hx. simpl in Hc.
        repeat (destruct Hc as [<-|Hc];
                [simpl in Hx; repeat (destruct Hx as [<-|Hx]; [discriminate|]);
                 contradiction|]).
        contradiction.
      * exists values. split; assumption.
  - destruct (hist_measured Sample.gf Sample.w_gf Sample.features_frame) as [_ Hstr].
    + reflexivity.
    + unfold rectangular. repeat constructor.
    + apply (Hstr "lung"). now left.
Defined.

(** ** Fraction of measured values per drug *)

Lemma filter_length_all {A} (P : A -> bool) (l : list A) :
  length (List.filter P l) = length l <-> forall x, In x l -> P x = true.
Proof.
  split.
  - intros H. apply List.filter_length_forallb in H. now apply forallb_forall.
  - intros H. now rewrite filter_all.
Qed.

Lemma fraction_bounds (k n : nat) :
  k <= n -> 0 < n ->
  exists q, true_divide k n = FNum q /\ (0 <= q)%Q /\ (q <= 1)%Q /\ (q == 1 <-> k = n)%Q.
Proof.
  intros Hk Hn. destruct n as [|n']; [lia|]. set (n := S n') in *.
  exists (inject_Z (Z.of_nat k) / inject_Z (Z.of_nat n))%Q.
  assert (Hpos : (0 < inject_Z (Z.of_nat n))%Q).
  { change 0%Q with (inject_Z 0). rewrite <- Zlt_Qlt. lia. }
  assert (Hk0 : (0 <= inject_Z (Z.of_nat k))%Q).
  { change 0%Q with (inject_Z 0). rewrite <- Zle_Qle. lia. }
  assert (Hkn : (inject_Z (Z.of_nat k) <= inject_Z (Z.of_nat n))%Q).
  { rewrite <- Zle_Qle. lia. }
  split; [reflexivity|]. split; [|split].
  - apply Qle_shift_div_l; [exact Hpos | lra].
  - apply Qle_shift_div_r; [exact Hpos | lra].
  - split.
    + intros Hq. apply Nat2Z.inj. apply inject_Z_injective.
      rewrite <- (Qmult_div_r (inject_Z (Z.of_nat k)) (inject_Z (Z.of_nat n))) by lra.
      rewrite Hq. lra.
    + intros ->. field. lra.
Qed.

(** [plot_ic50_count] returns one fraction per drug, in the order of the
    columns; on a frame with at least one row and one cell per row in every
    column, each fraction lies between 0 and 1, and is 1 exactly for the
    drugs with no missing value. *)
Theorem plot_ic50_count_fractions (self : object) (w : world) (d : DataFrame) :
  frames w !! df self = Some d ->
  rectangular d ->
  0 < nrows d ->
  exists fractions,
    IC50.plot_ic50_count self w = (Ok fractions, w) /\
    Forall2 (fun c f => exists q, f = FNum q /\ (0 <= q)%Q /\ (q <= 1)%Q /\
                                  ((q == 1)%Q <-> forall x, In x (snd c) ->
                                                            Pandas.isnull x = false))
            (data d) fractions.
Proof.
  intros Hd Hrect Hrows. eexists. split.
  { unfold IC50.plot_ic50_count, mbind, load, ret. now rewrite Hd. }
  unfold rectangular in Hrect. induction (data d) as [|c t IH]; simpl; constructor.
  - inversion Hrect as [|? ? Hc _]; subst.
    assert (Hle : Pandas.count (snd c) <= nrows d).
    { rewrite <- Hc. apply List.filter_length_le. }
    destruct (fraction_bounds _ _ Hle Hrows) as (q & Hq & H0 & H1 & Hfull).
    exists q. split; [exact Hq|]. split; [exact H0|]. split; [exact H1|].
    rewrite Hfull, <- Hc. unfold Pandas.count. rewrite filter_length_all.
    split; intros H x Hx; specialize (H x Hx).
    + now apply Bool.negb_true_iff.
    + now apply Bool.negb_true_iff.
  - apply IH. now inversion Hrect.
Qed.

Lemma plot_ic50_count_fractions_witness :
  exists fractions,
    IC50.plot_ic50_count {| _sep := tab; df := 0 |} Sample.w_ic50
    = (Ok fractions, Sample.w_ic50) /\
    Forall2 (fun c f => exists q, f = FNum q /\ (0 <= q)%Q /\ (q <= 1)%Q /\
                                  ((q == 1)%Q <-> forall x, In x (snd c) ->
                                                            Pandas.isnull x = false))
            (data Sample.ic50_frame) fractions.
Proof.
  apply (plot_ic50_count_fractions {| _sep := tab; df := 0 |} Sample.w_ic50
           Sample.ic50_frame).
  - reflexivity.
  - unfold rectangular. repeat constructor.
  - unfold nrows. simpl. lia.
Defined.

(** ** The summary printed for a [GenomicFeatures] *)

Lemma special_In (x : string) :
  special x = true <->
  In x [GenomicFeatures._col_tissue; GenomicFeatures._col_msi; GenomicFeatures._col_sample].
Proof.
  unfold special. rewrite existsb_exists. split.
  - intros (y & Hy & He). apply String.eqb_eq in He. now subst.
  - intros H. exists x. split; [exact H | apply String.eqb_refl].
Qed.

(** With unique labels and the three compulsory columns, three labels are
    informative and the others are features. *)
Lemma feature_count (cols : list string) :
  List.NoDup cols ->
  (forall name, In name required -> In name cols) ->
  (Z.of_nat (length cols) - 3)%Z
  = Z.of_nat (length (List.filter (fun x => negb (special x)) cols)).
Proof.
  intros Hnd Hreq.
  assert (Hthree : length (List.filter special cols) = 3).
  { change 3 with (length [GenomicFeatures._col_tissue; GenomicFeatures._col_msi;
                           GenomicFeatures._col_sample]).
    apply Permutation_length. apply Permutation.NoDup_Permutation.
    - now apply List.NoDup_filter.
    - repeat constructor; simpl; intuition discriminate.
    - intros x. rewrite List.filter_In, special_In. split; [tauto|].
      intros H. split; [|exact H]. apply Hreq. simpl in *. tauto. }
  pose proof (List.filter_length special cols) as Hsum. lia.
Qed.

(** On a frame with unique labels and the three compulsory columns,
    [__str__] reports the number of distinct tissues, and as the number of
    features the number of columns other than the three informative ones;
    the mutations and the copy number gains and losses are the columns
    ending in [_mut] and starting with [gain_cna] and [loss_cna]. *)
Theorem GenomicFeatures_str_reports (self : object) (w : world) (d : DataFrame)
    (col : list cell) :
  frames w !! df self = Some d ->
  well_formed d ->
  Pandas.getitem GenomicFeatures._col_tissue d = Ok col ->
  GenomicFeatures.__str__ self w =
  (Ok ("Genomic features distribution" +:+ newline +:+
       "Number of unique tissues " +:+
       GenomicFeatures.format_int (Z.of_nat (length (Pandas.unique col))) +:+ newline +:+
       "Number of unique features " +:+
       GenomicFeatures.format_int
         (Z.of_nat (length (List.filter (fun x => negb (special x)) (columns d)))) +:+
       " with" +:+ newline +:+
       "- Mutation: " +:+
       GenomicFeatures.format_int
         (Z.of_nat (length (List.filter (GenomicFeatures.endswith "_mut") (columns d)))) +:+
       newline +:+
       "- CNA (gain): " +:+
       GenomicFeatures.format_int
         (Z.of_nat (length (List.filter (String.prefix "gain_cna") (columns d)))) +:+
       newline +:+
       "- CNA (loss): " +:+
       GenomicFeatures.format_int
         (Z.of_nat (length (List.filter (String.prefix "loss_cna") (columns d))))),
   w).
Proof.
  intros Hd (_ & Hnd & Hreq) Hget.
  unfold GenomicFeatures.__str__, GenomicFeatures.features, mbind, load, lift, ret.
  rewrite Hd, Hget. cbv beta iota zeta. rewrite Hd. cbv beta iota zeta.
  rewrite (feature_count (columns d) Hnd Hreq).
  f_equal. f_equal. rewrite !append_assoc. reflexivity.
Qed.

Lemma GenomicFeatures_str_reports_witness :
  GenomicFeatures.__str__ Sample.gf Sample.w_gf =
  (Ok ("Genomic features distribution" +:+ newline +:+
       "Number of unique tissues 2" +:+ newline +:+
       "Number of unique features 2 with" +:+ newline +:+
       "- Mutation: 2" +:+ newline +:+
       "- CNA (gain): 0" +:+ newline +:+
       "- CNA (loss): 0"),
   Sample.w_gf).
Proof.
  apply (GenomicFeatures_str_reports Sample.gf Sample.w_gf Sample.features_frame
           [CStr "lung"; CStr "skin"; CStr "lung"]).
  - reflexivity.
  - exact sample_well_formed.
  - reflexivity.
Defined.

(** ** Writing with a separator of one's choice *)

(** [to_csv(filename, sep)] writes with [sep], whatever the separator of
    the object, and changes no frame and no other file.  A separator that
    is not one character long is refused with [TypeError].  With a
    separator of one character the call returns, and, unless the separator
    is a quote or a line end, an [IC50] read from the file with [sep] holds
    the frame that was written, when that frame
    is indexed by [COSMIC ID], has unique labels that all start with
    [Drug], and each of its columns, the index included, holds numbers and
    missing values, or strings and missing values that the parser leaves as
    they are. *)
Theorem to_csv_with_separator (tl : text_layer) (r : object) (filename sep : string)
    (w : world) (d : DataFrame) :
  frames w !! df r = Some d ->
  (String.length sep <> 1 ->
   exists w1,
     Reader.to_csv tl r filename (Some sep) w = (Raise TypeError, w1) /\
     frames w1 = frames w /\
     (forall other, other <> filename -> files w1 !! other = files w !! other)) /\
  (String.length sep = 1 ->
   exists w1,
     Reader.to_csv tl r filename (Some sep) w = (Ok tt, w1) /\
     frames w1 = frames w /\
     (forall other, other <> filename -> files w1 !! other = files w !! other) /\
     (file_sep <$> files w1 !! filename) = Some sep /\
     (PandasIO.separates sep = true ->
      index_name d = Some "COSMIC ID" ->
      List.NoDup (columns d) ->
      (forall x, In x (columns d) -> String.prefix "Drug" x = true) ->
      text_safe tl d ->
      exists r2 w2,
        IC50.__init__ (VStr filename) sep w1 = (Ok r2, w2) /\
        _sep r2 = sep /\
        frames w2 !! df r2 = Some d)).
Proof.
  intros Hd. split; intros Hlen.
  { eexists. split.
    { unfold Reader.to_csv, mbind, load. rewrite Hd. now apply to_csv_refused. }
    cbn [frames files]. split; [reflexivity|].
    intros other Hne. now apply lookup_insert_ne. }
  assert (Hw : Reader.to_csv tl r filename (Some sep) w
               = PandasIO.to_csv tl d filename sep w).
  { unfold Reader.to_csv, mbind, load. now rewrite Hd. }
  assert (Hrun : exists t,
             PandasIO.to_csv tl d filename sep w
             = (Ok tt, {| frames := frames w;
                          files := <[filename := {| file_sep := sep; file_table := t |}]>
                                     (files w);
                          resplit := resplit w |})).
  { unfold PandasIO.to_csv. rewrite Hlen. cbn [Nat.eqb].
    destruct (PandasIO.separates sep); eexists; reflexivity. }
  destruct Hrun as [t Hrun]. eexists. split; [rewrite Hw; exact Hrun|].
  cbn [frames files]. split; [reflexivity|].
  split; [intros other Hne; now apply lookup_insert_ne|].
  split; [now rewrite lookup_insert_eq|].
  intros Hsep Hname Hnd Hdrug Hsafe.
  rewrite (to_csv_written tl _ _ _ _ Hsep Hsafe) in Hrun.
  injection Hrun as <-.
  assert (Hcos : ~ In "COSMIC ID" (columns d))
    by (intros Hin; specialize (Hdrug _ Hin); discriminate).
  assert (Hempty : ~ In "" (columns d))
    by (intros Hin; specialize (Hdrug _ Hin); discriminate).
  assert (Hread : PandasIO.read_csv filename sep (written d filename sep w)
                  = (Ok {| index_name := None;
                           index := PandasIO.RangeIndex (length (index d));
                           data := ("COSMIC ID", index d) :: data d |},
                     written d filename sep w)).
  { apply read_after_write; [exact Hname | now constructor |].
    intros [Hc|Hc]; [discriminate | contradiction]. }
  assert (Hndraw : List.NoDup
                     (List.filter (String.prefix "Drug") ("COSMIC ID" :: columns d)))
    by (apply List.NoDup_filter; now constructor).
  destruct (IC50_init_file _ _ _ _ _ (index d) Hread Hndraw eq_refl)
    as (r2 & w2 & Hinit & Hlook & _).
  exists r2, w2.
  split; [exact Hinit|]. split.
  { unfold IC50.__init__ in Hinit. unfold mbind at 1 in Hinit. rewrite Hread in Hinit.
    unfold mbind, new, lift, store, ret in Hinit.
    destruct (Pandas.getitem_list _ _); [|discriminate].
    destruct (Pandas.set_index _ _); [|discriminate].
    now injection Hinit as <- _. }
  rewrite Hlook. f_equal. destruct d as [name idx cols]. simpl in *. subst name.
  f_equal. apply filter_all. intros c Hc. apply Hdrug. unfold columns. simpl.
  now apply List.in_map.
Qed.

Lemma to_csv_with_separator_witness :
  fst (Reader.to_csv Sample.text {| _sep := tab; df := 0 |} "out.csv" (Some "::")
         Sample.w_ic50) = Raise TypeError /\
  exists w1 r2 w2,
    Reader.to_csv Sample.text {| _sep := tab; df := 0 |} "out.csv" (Some ",") Sample.w_ic50
    = (Ok tt, w1) /\
    (file_sep <$> files w1 !! "out.csv") = Some "," /\
    IC50.__init__ (VStr "out.csv") "," w1 = (Ok r2, w2) /\
    frames w2 !! df r2 = Some Sample.ic50_frame.
Proof.
  split.
  - destruct (to_csv_with_separator Sample.text {| _sep := tab; df := 0 |} "out.csv" "::"
                Sample.w_ic50 Sample.ic50_frame eq_refl) as [Hno _].
    destruct Hno as (w1 & Hw & _); [discriminate|]. now rewrite Hw.
  - destruct (to_csv_with_separator Sample.text {| _sep := tab; df := 0 |} "out.csv" ","
                Sample.w_ic50 Sample.ic50_frame eq_refl) as [_ Hyes].
    destruct Hyes as (w1 & Hw & _ & _ & Hsep & Hback); [reflexivity|].
    destruct Hback as (r2 & w2 & Hinit & _ & Hlook).
    + reflexivity.
    + reflexivity.
    + distinct_labels.
    + unfold columns. simpl. intros x Hx.
      repeat (destruct Hx as [<-|Hx]; [reflexivity|]). contradiction.
    + split; [left | repeat constructor; left]; repeat constructor.
    + exists w1, r2, w2. repeat split; assumption.
Defined.
